(** * Scroll: the 9S data envelope of the dojo repository (src/scroll.py)

    A shallow embedding of [scroll.py]: Python values, the [Meta] record, the
    [Scroll] objects on a heap with the class-level [_registry], the
    computation-graph operators with their backward rules, the backward pass,
    the lineage query and the wire format.

    Conventions.
    - A Python object with identity (a [Scroll]) lives on a heap and is named
      by its index; the registry maps keys to such indices, and the closures
      [_backward] are kept as data ([rule]) holding the indices they capture.
    - Python exceptions are the [Raise] results of [result].
    - The runtime the module calls is modelled concretely: [hashlib.sha256],
      [str], [repr], [json.dumps]; the millisecond clock is an oracle carried
      by the state; the two libm functions [math.tanh] and float [**] are
      variables of the section that holds the operators.
    - Python [float] is the kernel's binary64 [float]; [int] is [Z]; a text
      is a [string] of code points below 256.
    - The limits of the interpreter (memory, the recursion limit) are not
      modelled. [Scroll.list], [__repr__] and the printing [demo] are not
      embedded. *)

From Stdlib Require Import ZArith Floats String Ascii List Bool DecimalString Lia.
From stdpp Require Import gmap strings list.

Open Scope string_scope.
Open Scope Z_scope.

(** ** Exceptions and results *)

Inductive exn : Set :=
| TypeError
| OverflowError
| ZeroDivisionError
| IndexError
| KeyError
| RecursionError.

Inductive result (A : Type) : Type :=
| Ok (a : A)
| Raise (e : exn).

Arguments Ok {A} a.
Arguments Raise {A} e.

Definition rbind {A B : Type} (r : result A) (k : A -> result B) : result B :=
  match r with
  | Ok a => k a
  | Raise e => Raise e
  end.

Fixpoint rmap {A B : Type} (f : A -> result B) (l : list A) : result (list B) :=
  match l with
  | [] => Ok []
  | x :: l' => rbind (f x) (fun y => rbind (rmap f l') (fun ys => Ok (y :: ys)))
  end.

(** ** hashlib.sha256 (FIPS 180-4), on byte strings *)

Module Sha256.

Definition mask32 : Z := 4294967295.
Definition add32 (x y : Z) : Z := Z.land (x + y) mask32.
Definition rotr (n x : Z) : Z :=
  Z.land (Z.lor (Z.shiftr x n) (Z.shiftl x (32 - n))) mask32.
Definition not32 (x : Z) : Z := Z.lxor x mask32.

Definition Ch (x y z : Z) : Z := Z.lxor (Z.land x y) (Z.land (not32 x) z).
Definition Maj (x y z : Z) : Z :=
  Z.lxor (Z.lxor (Z.land x y) (Z.land x z)) (Z.land y z).
Definition Sigma0 (x : Z) : Z := Z.lxor (Z.lxor (rotr 2 x) (rotr 13 x)) (rotr 22 x).
Definition Sigma1 (x : Z) : Z := Z.lxor (Z.lxor (rotr 6 x) (rotr 11 x)) (rotr 25 x).
Definition sigma0 (x : Z) : Z := Z.lxor (Z.lxor (rotr 7 x) (rotr 18 x)) (Z.shiftr x 3).
Definition sigma1 (x : Z) : Z := Z.lxor (Z.lxor (rotr 17 x) (rotr 19 x)) (Z.shiftr x 10).

(** The constants of the standard are roots of primes: the first 32 bits of
    the fractional part of the [r]-th root of [p], found bit by bit as the
    largest [x] with [x ^ r <= p * 2 ^ (32 * r)]. *)
Fixpoint root (r n : Z) (bit : nat) (x : Z) : Z :=
  match bit with
  | O => x
  | S bit' =>
      let y := x + Z.shiftl 1 (Z.of_nat bit') in
      root r n bit' (if y ^ r <=? n then y else x)
  end.

Definition frac_root (r p : Z) : Z := Z.land (root r (Z.shiftl p (32 * r)) 40 0) mask32.

Definition is_prime (n : nat) : bool :=
  forallb (fun d => negb (Nat.eqb (Nat.modulo n d) 0)) (seq 2 (n - 2)).

Definition primes : list Z := map Z.of_nat (filter is_prime (seq 2 310)).

(** The cube roots of the first 64 primes. *)
Definition K : list Z := Eval vm_compute in map (frac_root 3) primes.

(** The eight working variables a..h, and the chaining value. *)
Record regs : Set := Regs { ra : Z; rb : Z; rc : Z; rd : Z; re : Z; rf : Z; rg : Z; rh : Z }.

(** The square roots of the first 8 primes. *)
Definition H0 : regs :=
  Eval vm_compute in
    let h i := frac_root 2 (nth i primes 0) in
    Regs (h 0%nat) (h 1%nat) (h 2%nat) (h 3%nat) (h 4%nat) (h 5%nat) (h 6%nat) (h 7%nat).

Definition round (s : regs) (kw : Z * Z) : regs :=
  let t1 := add32 (add32 (add32 (add32 (rh s) (Sigma1 (re s))) (Ch (re s) (rf s) (rg s))) (fst kw)) (snd kw) in
  let t2 := add32 (Sigma0 (ra s)) (Maj (ra s) (rb s) (rc s)) in
  Regs (add32 t1 t2) (ra s) (rb s) (rc s) (add32 (rd s) t1) (re s) (rf s) (rg s).

(** Message schedule: [w] holds W_0..W_{t-1}; [n] more words are appended. *)
Fixpoint schedule (n : nat) (w : list Z) : list Z :=
  match n with
  | O => w
  | S n' =>
      let t := length w in
      let g i := nth (t - i) w 0 in
      schedule n' (w ++ [add32 (add32 (add32 (sigma1 (g 2%nat)) (g 7%nat)) (sigma0 (g 15%nat))) (g 16%nat)])
  end.

Fixpoint words (bs : list Z) : list Z :=
  match bs with
  | b0 :: b1 :: b2 :: b3 :: bs' =>
      (Z.shiftl b0 24 + Z.shiftl b1 16 + Z.shiftl b2 8 + b3) :: words bs'
  | _ => []
  end.

Definition compress (h : regs) (block : list Z) : regs :=
  let w := schedule 48 (words block) in
  let s := fold_left round (combine K w) h in
  Regs (add32 (ra h) (ra s)) (add32 (rb h) (rb s)) (add32 (rc h) (rc s)) (add32 (rd h) (rd s))
       (add32 (re h) (re s)) (add32 (rf h) (rf s)) (add32 (rg h) (rg s)) (add32 (rh h) (rh s)).

Definition pad (msg : list Z) : list Z :=
  let l := Z.of_nat (length msg) in
  let k := Z.to_nat ((55 - l) mod 64) in
  let bits := 8 * l in
  msg ++ [128] ++ repeat 0 k
      ++ map (fun i => Z.land (Z.shiftr bits (8 * i)) 255) [7; 6; 5; 4; 3; 2; 1; 0].

Fixpoint blocks (n : nat) (h : regs) (bs : list Z) : regs :=
  match n with
  | O => h
  | S n' => blocks n' (compress h (firstn 64 bs)) (skipn 64 bs)
  end.

Definition digest (msg : list Z) : regs :=
  let p := pad msg in blocks (length p / 64) H0 p.

Definition hexdigit (d : Z) : ascii :=
  ascii_of_nat (Z.to_nat (if d <? 10 then 48 + d else 87 + d)).

Definition hex32 (x : Z) (rest : string) : string :=
  let d i := hexdigit (Z.land (Z.shiftr x (4 * i)) 15) in
  String (d 7) (String (d 6) (String (d 5) (String (d 4)
    (String (d 3) (String (d 2) (String (d 1) (String (d 0) rest))))))).

(** [hashlib.sha256(msg).hexdigest()] *)
Definition hexdigest (msg : list Z) : string :=
  let r := digest msg in
  hex32 (ra r) (hex32 (rb r) (hex32 (rc r) (hex32 (rd r)
    (hex32 (re r) (hex32 (rf r) (hex32 (rg r) (hex32 (rh r) ""))))))).

End Sha256.

(** ** Text

    A Python [str] is modelled by a [string] whose characters are the code
    points below 256; [encode] is [str.encode()], UTF-8. *)

Definition code (c : ascii) : Z := Z.of_nat (nat_of_ascii c).
Definition chr (n : Z) : ascii := ascii_of_nat (Z.to_nat n).

Fixpoint encode (s : string) : list Z :=
  match s with
  | EmptyString => []
  | String c s' =>
      let n := code c in
      if n <? 128 then n :: encode s'
      else (192 + Z.shiftr n 6) :: (128 + Z.land n 63) :: encode s'
  end.

Definition sha256_hex (s : string) : string := Sha256.hexdigest (encode s).

(** [s[:n]] *)
Definition take_str (n : nat) (s : string) : string := substring 0 n s.

Definition startswith (s p : string) : bool := String.prefix p s.

Fixpoint zeros (n : nat) : string :=
  match n with
  | O => ""
  | S n' => String "0" (zeros n')
  end.

(** [str(n)] for an [int]. *)
Definition int_str (n : Z) : string := NilZero.string_of_int (Z.to_int n).

(** ** repr of a float: the shortest decimal string that reads back as the
    same binary64 value (CPython's [float_repr_style = 'short']). *)

Module FloatRepr.

(** [a * 10^k ?= b * 2^q], for integers [a], [b] and any [k], [q]. *)
Definition cmp_scaled (a k b q : Z) : comparison :=
  (a * 10 ^ Z.max k 0 * 2 ^ Z.max (- q) 0 ?= b * 2 ^ Z.max q 0 * 10 ^ Z.max (- k) 0).

(** The least [d >= d0] with [m * 2^e < 10^d]. *)
Fixpoint decpt_from (fuel : nat) (m e d : Z) : Z :=
  match fuel with
  | O => d
  | S fuel' =>
      match cmp_scaled 1 d m e with
      | Gt => d
      | _ => decpt_from fuel' m e (d + 1)
      end
  end.

Definition decpt (m e : Z) : Z :=
  decpt_from 16 m e (((e + Z.log2 m) * 30102) / 100000 - 2).

(** The [n]-digit decimal [c * 10^(p - n)] nearest to [m * 2^e] among those
    that round to it, if there is one. The rounding interval is
    [(lo, hi) * 2^(e - 2)], closed when [m] is even. *)
Definition candidate (m e p n : Z) : option Z :=
  let k := p - n in
  let lo := 4 * m - (if (m =? 2 ^ 52) && (-1074 <? e) then 1 else 2) in
  let hi := 4 * m + 2 in
  let c_lo := (m * 2 ^ Z.max e 0 * 10 ^ Z.max (- k) 0) / (2 ^ Z.max (- e) 0 * 10 ^ Z.max k 0) in
  let c_hi := c_lo + 1 in
  let inside c :=
    match cmp_scaled c k lo (e - 2), cmp_scaled c k hi (e - 2) with
    | Gt, Lt => true
    | Eq, _ | _, Eq => Z.even m
    | _, _ => false
    end in
  match inside c_lo, inside c_hi with
  | true, true =>
      match cmp_scaled (c_lo + c_hi) k (8 * m) (e - 2) with
      | Gt => Some c_lo
      | Lt => Some c_hi
      | Eq => Some (if Z.even c_lo then c_lo else c_hi)
      end
  | true, false => Some c_lo
  | false, true => Some c_hi
  | false, false => None
  end.

Fixpoint shortest (fuel : nat) (m e p n : Z) : Z * Z :=
  match fuel with
  | O => (0, n)
  | S fuel' =>
      match candidate m e p n with
      | Some c => (c, n)
      | None => shortest fuel' m e p (n + 1)
      end
  end.

(** The digits and the position of the decimal point: the value is
    [0.d1...dn * 10^p]. *)
Definition digits (m e : Z) : string * Z :=
  let p := decpt m e in
  let '(c, n) := shortest 17 m e p 1 in
  if c =? 10 ^ n then ("1", p + 1) else (int_str c, p).

Definition exponent (x : Z) : string :=
  let a := int_str (Z.abs x) in
  (if x <? 0 then "-" else "+") +:+ (if Z.abs x <? 10 then "0" +:+ a else a).

(** The [repr] layout: exponent form when [p <= -4] or [p > 16]. *)
Definition layout (d : string) (p : Z) : string :=
  let n := Z.of_nat (String.length d) in
  if (p <=? -4) || (16 <? p) then
    take_str 1 d +:+ (if 1 <? n then "." +:+ substring 1 (String.length d) d else "")
      +:+ "e" +:+ exponent (p - 1)
  else if p <=? 0 then "0." +:+ zeros (Z.to_nat (- p)) +:+ d
  else if n <=? p then d +:+ zeros (Z.to_nat (p - n)) +:+ ".0"
  else take_str (Z.to_nat p) d +:+ "." +:+ substring (Z.to_nat p) (String.length d) d.

Definition finite (m : positive) (e : Z) : string :=
  let '(d, p) := digits (Z.pos m) e in layout d p.

End FloatRepr.

(** [repr(x)] and [str(x)] for a float. *)
Definition float_repr (x : float) : string :=
  match Prim2SF x with
  | S754_nan => "nan"
  | S754_infinity s => if s then "-inf" else "inf"
  | S754_zero s => if s then "-0.0" else "0.0"
  | S754_finite s m e => (if s then "-" else "") +:+ FloatRepr.finite m e
  end.

(** ** Python values

    The data an envelope carries: the JSON-representable values and, for data
    that [json.dumps] refuses, a bare [object()] (it supports no operator, is
    not iterable, and prints with its address). A [dict] keeps its insertion
    order; its keys are texts. *)

#[warnings="-register-all"]
Inductive value : Type :=
| VNone
| VBool (b : bool)
| VInt (n : Z)
| VFloat (x : float)
| VStr (s : string)
| VList (xs : list value)
| VDict (kvs : list (string * value))
| VObject (addr : Z).

(** [isinstance(v, (int, float))]: [bool] is a subclass of [int]. *)
Definition is_number (v : value) : bool :=
  match v with
  | VBool _ | VInt _ | VFloat _ => true
  | _ => false
  end.

(** [isinstance(v, int)] *)
Definition is_int (v : value) : bool :=
  match v with
  | VBool _ | VInt _ => true
  | _ => false
  end.

Definition is_str (v : value) : bool := match v with VStr _ => true | _ => false end.
Definition is_list (v : value) : bool := match v with VList _ => true | _ => false end.
Definition is_dict (v : value) : bool := match v with VDict _ => true | _ => false end.

(** [hasattr(v, '__iter__') and not isinstance(v, (str, dict))] *)
Definition is_iterable_seq (v : value) : bool := is_list v.

(** *** Numbers *)

Inductive num : Set :=
| NInt (n : Z)
| NFloat (x : float).

Definition as_num (v : value) : option num :=
  match v with
  | VBool b => Some (NInt (Z.b2z b))
  | VInt n => Some (NInt n)
  | VFloat x => Some (NFloat x)
  | _ => None
  end.

Definition of_num (a : num) : value :=
  match a with
  | NInt n => VInt n
  | NFloat x => VFloat x
  end.

(** [float(n)] for an [int]: the nearest binary64 value; an [int] beyond the
    range raises. *)
Definition float_of_int (n : Z) : result float :=
  let x := SF2Prim (binary_normalize prec emax n 0 false) in
  if is_infinity x then Raise OverflowError else Ok x.

Definition to_float (a : num) : result float :=
  match a with
  | NInt n => float_of_int n
  | NFloat x => Ok x
  end.

Definition num_binop (fz : Z -> Z -> Z) (ff : float -> float -> float) (a b : num) : result num :=
  match a, b with
  | NInt m, NInt n => Ok (NInt (fz m n))
  | _, _ =>
      rbind (to_float a) (fun x =>
      rbind (to_float b) (fun y => Ok (NFloat (ff x y))))
  end.

Definition num_add : num -> num -> result num := num_binop Z.add PrimFloat.add.
Definition num_sub : num -> num -> result num := num_binop Z.sub PrimFloat.sub.
Definition num_mul : num -> num -> result num := num_binop Z.mul PrimFloat.mul.

Definition num_neg (a : num) : num :=
  match a with
  | NInt n => NInt (- n)
  | NFloat x => NFloat (- x)%float
  end.

(** [a > 0] *)
Definition num_pos (a : num) : bool :=
  match a with
  | NInt n => 0 <? n
  | NFloat x => (0 <? x)%float
  end.

(** *** Sequences and mappings *)

(** [s * n] for a text: the empty text when [n <= 0]. *)
Fixpoint str_repeat (n : nat) (s : string) : string :=
  match n with
  | O => ""
  | S n' => s +:+ str_repeat n' s
  end.

(** [xs * n] for a list. *)
Fixpoint list_repeat (n : nat) (xs : list value) : list value :=
  match n with
  | O => []
  | S n' => xs ++ list_repeat n' xs
  end.

(** [xs[i]]: a negative index counts from the end. *)
Definition py_index (xs : list value) (i : Z) : result value :=
  let j := if i <? 0 then i + Z.of_nat (length xs) else i in
  if j <? 0 then Raise IndexError
  else match nth_error xs (Z.to_nat j) with
       | Some v => Ok v
       | None => Raise IndexError
       end.

(** [d.get(k)] on the pairs of a dict. *)
Fixpoint dict_get (k : string) (kvs : list (string * value)) : option value :=
  match kvs with
  | [] => None
  | (k', v) :: kvs' => if String.eqb k k' then Some v else dict_get k kvs'
  end.

(** [d[k] = v]: a key already present keeps its place. *)
Fixpoint dict_set (k : string) (v : value) (kvs : list (string * value)) : list (string * value) :=
  match kvs with
  | [] => [(k, v)]
  | (k', v') :: kvs' =>
      if String.eqb k k' then (k', v) :: kvs' else (k', v') :: dict_set k v kvs'
  end.

(** [{**a, **b}] *)
Definition dict_merge (a b : list (string * value)) : list (string * value) :=
  fold_left (fun acc kv => dict_set (fst kv) (snd kv) acc) b a.

(** *** The native operators *)

Definition int_of (v : value) : option Z :=
  match v with
  | VBool b => Some (Z.b2z b)
  | VInt n => Some n
  | _ => None
  end.

(** [v + w] *)
Definition py_add (v w : value) : result value :=
  match as_num v, as_num w with
  | Some a, Some b => rbind (num_add a b) (fun c => Ok (of_num c))
  | _, _ =>
      match v, w with
      | VStr s, VStr t => Ok (VStr (s +:+ t))
      | VList xs, VList ys => Ok (VList (xs ++ ys))
      | _, _ => Raise TypeError
      end
  end.

(** [v - w] *)
Definition py_sub (v w : value) : result value :=
  match as_num v, as_num w with
  | Some a, Some b => rbind (num_sub a b) (fun c => Ok (of_num c))
  | _, _ => Raise TypeError
  end.

(** [v * w] *)
Definition py_mul (v w : value) : result value :=
  match as_num v, as_num w with
  | Some a, Some b => rbind (num_mul a b) (fun c => Ok (of_num c))
  | _, _ =>
      match v, int_of w, int_of v, w with
      | VStr s, Some n, _, _ => Ok (VStr (str_repeat (Z.to_nat n) s))
      | VList xs, Some n, _, _ => Ok (VList (list_repeat (Z.to_nat n) xs))
      | _, _, Some n, VStr s => Ok (VStr (str_repeat (Z.to_nat n) s))
      | _, _, Some n, VList xs => Ok (VList (list_repeat (Z.to_nat n) xs))
      | _, _, _, _ => Raise TypeError
      end
  end.

(** [- v] *)
Definition py_neg (v : value) : result value :=
  match as_num v with
  | Some a => Ok (of_num (num_neg a))
  | None => Raise TypeError
  end.

(** [bool(v)] *)
Definition py_truthy (v : value) : bool :=
  match v with
  | VNone => false
  | VBool b => b
  | VInt n => negb (n =? 0)
  | VFloat x => negb (x =? 0)%float
  | VStr s => negb (String.eqb s "")
  | VList xs => match xs with [] => false | _ => true end
  | VDict kvs => match kvs with [] => false | _ => true end
  | VObject _ => true
  end.

(** ** str, repr and json.dumps *)

Definition dquote : ascii := chr 34.
Definition squote : ascii := chr 39.
Definition backslash : ascii := chr 92.

Definition str1 (c : ascii) : string := String c "".

Fixpoint contains (c : ascii) (s : string) : bool :=
  match s with
  | EmptyString => false
  | String c' s' => Ascii.eqb c c' || contains c s'
  end.

Fixpoint join (sep : string) (l : list string) : string :=
  match l with
  | [] => ""
  | [s] => s
  | s :: l' => s +:+ sep +:+ join sep l'
  end.

Definition hexchar (d : Z) : string := str1 (Sha256.hexdigit d).

(** Two and four hexadecimal digits of a code point below 256. *)
Definition hex2 (n : Z) : string := hexchar (Z.shiftr n 4) +:+ hexchar (Z.land n 15).
Definition hex4 (n : Z) : string := "00" +:+ hex2 n.

(** [hex(n)[2:]] for [n >= 0]. *)
Fixpoint hex_digits (fuel : nat) (n : Z) (acc : string) : string :=
  match fuel with
  | O => acc
  | S fuel' =>
      let acc' := hexchar (Z.land n 15) +:+ acc in
      if n <? 16 then acc' else hex_digits fuel' (Z.shiftr n 4) acc'
  end.

Definition hex (n : Z) : string := hex_digits (S (Z.to_nat (Z.log2 n))) n "".

(** [repr(s)] for a text: single quotes unless the text holds one and no
    double quote. *)
Definition repr_char (q : ascii) (c : ascii) : string :=
  let n := code c in
  if Ascii.eqb c backslash then String backslash (str1 backslash)
  else if Ascii.eqb c q then String backslash (str1 q)
  else if n =? 9 then String backslash "t"
  else if n =? 10 then String backslash "n"
  else if n =? 13 then String backslash "r"
  else if (n <? 32) || ((127 <=? n) && (n <=? 160)) || (n =? 173)
       then String backslash ("x" +:+ hex2 n)
  else str1 c.

Fixpoint concat_map (f : ascii -> string) (s : string) : string :=
  match s with
  | EmptyString => ""
  | String c s' => f c +:+ concat_map f s'
  end.

Definition repr_str (s : string) : string :=
  let q := if contains squote s && negb (contains dquote s) then dquote else squote in
  str1 q +:+ concat_map (repr_char q) s +:+ str1 q.

Fixpoint py_repr (v : value) : string :=
  match v with
  | VNone => "None"
  | VBool b => if b then "True" else "False"
  | VInt n => int_str n
  | VFloat x => float_repr x
  | VStr s => repr_str s
  | VList xs => "[" +:+ join ", " (map py_repr xs) +:+ "]"
  | VDict kvs =>
      "{" +:+ join ", " (map (fun kv => repr_str (fst kv) +:+ ": " +:+ py_repr (snd kv)) kvs) +:+ "}"
  | VObject a => "<object object at 0x" +:+ hex a +:+ ">"
  end.

(** [str(v)] *)
Definition py_str (v : value) : string :=
  match v with
  | VStr s => s
  | _ => py_repr v
  end.

(** A JSON string literal, [ensure_ascii=True]. *)
Definition json_char (c : ascii) : string :=
  let n := code c in
  if Ascii.eqb c dquote then String backslash (str1 dquote)
  else if Ascii.eqb c backslash then String backslash (str1 backslash)
  else if n =? 10 then String backslash "n"
  else if n =? 13 then String backslash "r"
  else if n =? 9 then String backslash "t"
  else if n =? 12 then String backslash "f"
  else if n =? 8 then String backslash "b"
  else if (n <? 32) || (127 <=? n) then String backslash ("u" +:+ hex4 n)
  else str1 c.

Definition json_str (s : string) : string :=
  str1 dquote +:+ concat_map json_char s +:+ str1 dquote.

Definition json_float (x : float) : string :=
  match Prim2SF x with
  | S754_nan => "NaN"
  | S754_infinity s => if s then "-Infinity" else "Infinity"
  | _ => float_repr x
  end.

(** [sorted(d.items())], by key. *)
Fixpoint insert_sorted {A : Type} (kv : string * A) (l : list (string * A)) : list (string * A) :=
  match l with
  | [] => [kv]
  | kv' :: l' =>
      if String.leb (fst kv) (fst kv') then kv :: l else kv' :: insert_sorted kv l'
  end.

Definition sort_items {A : Type} (kvs : list (string * A)) : list (string * A) :=
  fold_right insert_sorted [] kvs.

(** [json.dumps(v, default=str if dflt, sort_keys=sort_keys)]: with no
    [default] an object that is not JSON-representable raises. The items of a
    dict are encoded and then put in key order. *)
Fixpoint json_dumps (dflt sort_keys : bool) (v : value) : result string :=
  match v with
  | VNone => Ok "null"
  | VBool b => Ok (if b then "true" else "false")
  | VInt n => Ok (int_str n)
  | VFloat x => Ok (json_float x)
  | VStr s => Ok (json_str s)
  | VList xs =>
      rbind (rmap (json_dumps dflt sort_keys) xs) (fun l => Ok ("[" +:+ join ", " l +:+ "]"))
  | VDict kvs =>
      rbind (rmap (fun kv => rbind (json_dumps dflt sort_keys (snd kv))
                                   (fun j => Ok (fst kv, j))) kvs) (fun l =>
      let items := if sort_keys then sort_items l else l in
      Ok ("{" +:+ join ", " (map (fun kj => json_str (fst kj) +:+ ": " +:+ snd kj) items) +:+ "}"))
  | VObject a => if dflt then Ok (json_str (py_str v)) else Raise TypeError
  end.

(** ** Meta: the metadata record *)

Module Meta.

Record t : Type := Make {
  schema : string;
  version : Z;
  hash : string;
  time : Z;
  prev : list string;
  op : string;
  influence : float;
}.

Definition with_hash (h : string) (m : t) : t :=
  Make (schema m) (version m) h (time m) (prev m) (op m) (influence m).

Definition with_influence (x : float) (m : t) : t :=
  Make (schema m) (version m) (hash m) (time m) (prev m) (op m) x.

(** [Meta.to_dict]: the extensions are written only when they are not the
    defaults. *)
Definition to_dict (self : t) : list (string * value) :=
  let d := [ ("schema", VStr (schema self));
             ("version", VInt (version self));
             ("hash", VStr (hash self));
             ("time", VInt (time self)) ] in
  let d := if py_truthy (VList (map VStr (prev self)))
           then dict_set "prev" (VList (map VStr (prev self))) d else d in
  let d := if py_truthy (VStr (op self)) then dict_set "op" (VStr (op self)) d else d in
  let d := if negb (influence self =? 0)%float
           then dict_set "influence" (VFloat (influence self)) d else d in
  d.

(** The fields have the types the dataclass declares; a wire value of another
    type is outside the model and is reported as a [TypeError]. *)
Definition get_str (d : list (string * value)) (k : string) (dflt : string) : result string :=
  match dict_get k d with
  | None => Ok dflt
  | Some (VStr s) => Ok s
  | Some _ => Raise TypeError
  end.

Definition get_int (d : list (string * value)) (k : string) (dflt : Z) : result Z :=
  match dict_get k d with
  | None => Ok dflt
  | Some (VInt n) => Ok n
  | Some _ => Raise TypeError
  end.

Definition get_float (d : list (string * value)) (k : string) (dflt : float) : result float :=
  match dict_get k d with
  | None => Ok dflt
  | Some (VFloat x) => Ok x
  | Some _ => Raise TypeError
  end.

Definition get_strs (d : list (string * value)) (k : string) (dflt : list string) : result (list string) :=
  match dict_get k d with
  | None => Ok dflt
  | Some (VList xs) =>
      rmap (fun v => match v with VStr s => Ok s | _ => Raise TypeError end) xs
  | Some _ => Raise TypeError
  end.

(** [Meta.from_dict]; [now] is the reading of the clock that the default of
    ["time"] takes, used or not. *)
Definition from_dict (now : Z) (d : list (string * value)) : result t :=
  rbind (get_str d "schema" "dojo/scroll") (fun schema =>
  rbind (get_int d "version" 1) (fun version =>
  rbind (get_str d "hash" "") (fun hash =>
  rbind (get_int d "time" now) (fun time =>
  rbind (get_strs d "prev" []) (fun prev =>
  rbind (get_str d "op" "") (fun op =>
  rbind (get_float d "influence" 0%float) (fun influence =>
  Ok (Make schema version hash time prev op influence)))))))).

End Meta.

(** ** Scroll: the envelope, the heap and the registry *)

Module Scroll.

(** The closure [_backward] of a scroll: which operator installed it and the
    objects and values it captured. *)
Inductive rule : Type :=
| BNone
| BAdd (self other out : nat)
| BMul (self other out : nat)
| BPow (self : nat) (n : value) (out : nat)
| BRelu (self out : nat)
| BTanh (self : nat) (t : float) (out : nat).

Record t : Type := Make {
  key : string;
  data : value;
  meta : Meta.t;
  _backward : rule;
}.

(** The objects created so far, the class attribute [_registry], and the
    millisecond clock [int(time.time() * 1000)]: its successive readings and
    how many were taken. *)
Record state : Type := State {
  heap : list t;
  _registry : gmap string nat;
  clock : nat -> Z;
  ticks : nat;
}.

(** An index outside the heap names no object; reading it gives this inert
    scroll. The operations only hold indices they allocated. *)
Definition void : t :=
  Make "" VNone (Meta.Make "" 0 "" 0 [] "" 0%float) BNone.

Definition deref (σ : state) (r : nat) : t := nth r (heap σ) void.

(** Computations on the state that may raise. *)
Definition M (A : Type) : Type := state -> result (A * state).

Definition ret {A : Type} (a : A) : M A := fun σ => Ok (a, σ).

Definition bind {A B : Type} (c : M A) (k : A -> M B) : M B :=
  fun σ => match c σ with
           | Ok (a, σ') => k a σ'
           | Raise e => Raise e
           end.

Definition lift {A : Type} (r : result A) : M A :=
  fun σ => match r with
           | Ok a => Ok (a, σ)
           | Raise e => Raise e
           end.

Declare Scope scroll_scope.
Delimit Scope scroll_scope with scroll.
Notation "x <- c1 ; c2" := (bind c1 (fun x => c2))
  (at level 20, c1 at level 100, c2 at level 200, only parsing) : scroll_scope.
Notation "c1 ;; c2" := (bind c1 (fun _ => c2))
  (at level 100, c2 at level 200, only parsing, right associativity) : scroll_scope.
Open Scope scroll_scope.

Definition get_state : M state := fun σ => Ok (σ, σ).

Definition load (r : nat) : M t := fun σ => Ok (deref σ r, σ).

(** [int(time.time() * 1000)] *)
Definition now : M Z :=
  fun σ => Ok (clock σ (ticks σ), State (heap σ) (_registry σ) (clock σ) (S (ticks σ))).

Definition alloc (s : t) : M nat :=
  fun σ => Ok (length (heap σ), State (heap σ ++ [s]) (_registry σ) (clock σ) (ticks σ)).

(** [Scroll._registry[k] = r] *)
Definition register (k : string) (r : nat) : M unit :=
  fun σ => Ok (tt, State (heap σ) (<[k := r]> (_registry σ)) (clock σ) (ticks σ)).

Definition set_backward (r : nat) (b : rule) : M unit :=
  fun σ =>
    let s := deref σ r in
    Ok (tt, State (<[r := Make (key s) (data s) (meta s) b]> (heap σ))
                  (_registry σ) (clock σ) (ticks σ)).

(** [r.meta.influence = x] *)
Definition set_influence (r : nat) (x : float) : M unit :=
  fun σ =>
    let s := deref σ r in
    Ok (tt, State (<[r := Make (key s) (data s) (Meta.with_influence x (meta s)) (_backward s)]> (heap σ))
                  (_registry σ) (clock σ) (ticks σ)).

(** *** Keys and hashes *)

Definition _generate_key (data : value) : M string :=
  let h := take_str 8 (sha256_hex (py_str data)) in
  n <- now ;
  let t := n mod 100000 in
  ret ("/scroll/" +:+ h +:+ "_" +:+ int_str t).

Definition _compute_hash (key : string) (data : value) : result string :=
  rbind (json_dumps true true data) (fun j => Ok (sha256_hex (key +:+ j))).

(** [Meta()] with the fields the caller gives; [time] takes the clock. *)
Definition new_meta (schema : string) (version : Z) (prev : list string) (op : string) : M Meta.t :=
  n <- now ;
  ret (Meta.Make schema version "" n prev op 0%float).

(** *** The constructor *)

(** [Scroll(key_or_data, data, meta)] *)
Definition __init__ (key_or_data data : value) (meta : option Meta.t) : M nat :=
  let derived :=
    let d := match data with VNone => key_or_data | _ => data end in
    k <- _generate_key d ; ret (k, d) in
  kd <- match key_or_data with
        | VStr s => if startswith s "/" then ret (s, data) else derived
        | _ => derived
        end ;
  m <- match meta with
       | Some m => ret m
       | None => new_meta "dojo/scroll" 1 [] ""
       end ;
  m <- (if negb (py_truthy (VStr (Meta.hash m)))
        then h <- lift (_compute_hash (fst kd) (snd kd)) ; ret (Meta.with_hash h m)
        else ret m) ;
  self <- alloc (Make (fst kd) (snd kd) m BNone) ;
  register (fst kd) self ;;
  ret self.

(** *** The namespace *)

Definition read (σ : state) (k : string) : option nat := _registry σ !! k.

Definition clear : M unit :=
  fun σ => Ok (tt, State (heap σ) ∅ (clock σ) (ticks σ)).

(** *** The wire format *)

Definition _is_json_safe (obj : value) : bool :=
  match json_dumps false false obj with
  | Ok _ => true
  | Raise _ => false
  end.

Definition to_dict (self : t) : value :=
  VDict [ ("key", VStr (key self));
          ("data", if _is_json_safe (data self) then data self else VStr (py_str (data self)));
          ("meta", VDict (Meta.to_dict (meta self))) ].

(** [Scroll.from_dict(d)]; a [d] that is no dict has no [get]. *)
Definition from_dict (d : value) : M nat :=
  match d with
  | VDict kvs =>
      n <- now ;
      m <- lift (match dict_get "meta" kvs with
                 | None => Meta.from_dict n []
                 | Some (VDict md) => Meta.from_dict n md
                 | Some _ => Raise TypeError
                 end) ;
      k <- lift (match dict_get "key" kvs with Some v => Ok v | None => Raise KeyError end) ;
      v <- lift (match dict_get "data" kvs with Some v => Ok v | None => Raise KeyError end) ;
      __init__ k v (Some m)
  | _ => lift (Raise TypeError)
  end.

(** *** The computation-graph operators *)

Section Operators.

(** The two functions of the C library behind the arithmetic: [x ** y] on
    floats ([float.__pow__], which raises on a zero base with a negative
    exponent and on overflow) and [math.tanh]. A negative base under a
    fractional exponent gives a complex number in Python; the values have
    none, and such a power is left to [float_pow] to refuse. *)
Variable float_pow : float -> float -> result float.
Variable math_tanh : float -> float.

(** [v ** w] *)
Definition py_pow (v w : value) : result value :=
  match as_num v, as_num w with
  | Some (NInt a), Some (NInt b) =>
      if 0 <=? b then Ok (VInt (a ^ b))
      else rbind (float_of_int a) (fun x =>
           rbind (float_of_int b) (fun y =>
           rbind (float_pow x y) (fun z => Ok (VFloat z))))
  | Some a, Some b =>
      rbind (to_float a) (fun x =>
      rbind (to_float b) (fun y =>
      rbind (float_pow x y) (fun z => Ok (VFloat z))))
  | _, _ => Raise TypeError
  end.

(** An operand of a binary operator: a scroll or a raw value. *)
Inductive operand : Type :=
| OScroll (r : nat)
| ORaw (v : value).

(** [other if isinstance(other, Scroll) else Scroll(other)] *)
Definition as_scroll (other : operand) : M nat :=
  match other with
  | OScroll r => ret r
  | ORaw v => __init__ v VNone None
  end.

Definition _child (self : nat) (data : value) (op : string) (parents : list nat) : M nat :=
  σ <- get_state ;
  m <- new_meta "dojo/computed" 1 (map (fun p => key (deref σ p)) parents) op ;
  __init__ VNone data (Some m).

(** The type-aware addition of [__add__]. *)
Definition add_data (x y : value) : result value :=
  if is_number x && is_number y then py_add x y
  else if is_str x && is_str y then py_add x y
  else if is_list x && is_list y then py_add x y
  else match x, y with
       | VDict a, VDict b => Ok (VDict (dict_merge a b))
       | _, _ => py_add x y
       end.

Definition __add__ (self : nat) (other : operand) : M nat :=
  other <- as_scroll other ;
  s <- load self ;
  o <- load other ;
  res <- lift (add_data (data s) (data o)) ;
  out <- _child self res "+" [self; other] ;
  set_backward out (BAdd self other out) ;;
  ret out.

Definition __radd__ (self : nat) (other : operand) : M nat := __add__ self other.

(** The type dispatch of [__mul__]. *)
Definition mul_data (x y : value) : result value :=
  if is_number x && is_number y then py_mul x y
  else if is_str x && is_int y then py_mul x y
  else if is_list x && is_int y then py_mul x y
  else py_mul x y.

Definition __mul__ (self : nat) (other : operand) : M nat :=
  other <- as_scroll other ;
  s <- load self ;
  o <- load other ;
  res <- lift (mul_data (data s) (data o)) ;
  out <- _child self res "*" [self; other] ;
  set_backward out (BMul self other out) ;;
  ret out.

Definition __rmul__ (self : nat) (other : operand) : M nat := __mul__ self other.

Definition __pow__ (self : nat) (n : value) : M nat :=
  s <- load self ;
  res <- lift (py_pow (data s) n) ;
  out <- _child self res ("**" +:+ py_str n) [self] ;
  set_backward out (BPow self n out) ;;
  ret out.

Definition __neg__ (self : nat) : M nat := __mul__ self (ORaw (VInt (-1))).

Definition __sub__ (self : nat) (other : operand) : M nat :=
  match other with
  | OScroll r => n <- __neg__ r ; __add__ self (OScroll n)
  | ORaw v => nv <- lift (py_neg v) ; r <- __init__ nv VNone None ; __add__ self (OScroll r)
  end.

Definition __truediv__ (self : nat) (other : operand) : M nat :=
  match other with
  | OScroll r => p <- __pow__ r (VInt (-1)) ; __mul__ self (OScroll p)
  | ORaw v => r <- __init__ v VNone None ; p <- __pow__ r (VInt (-1)) ; __mul__ self (OScroll p)
  end.

(** *** The universal operators; a Python callable is a function that may
    raise. *)

Definition transform (self : nat) (fn : value -> result value) (op_name : string) : M nat :=
  s <- load self ;
  v <- lift (fn (data s)) ;
  _child self v op_name [self].

Definition map (self : nat) (fn : value -> result value) : M nat :=
  s <- load self ;
  match data s with
  | VList xs => vs <- lift (rmap fn xs) ; _child self (VList vs) "map" [self]
  | _ => transform self fn "map"
  end.

(** [[x for x in xs if predicate(x)]] *)
Fixpoint keep (predicate : value -> result value) (xs : list value) : result (list value) :=
  match xs with
  | [] => Ok []
  | x :: xs' =>
      rbind (predicate x) (fun b =>
      rbind (keep predicate xs') (fun ys => Ok (if py_truthy b then x :: ys else ys)))
  end.

Definition filter (self : nat) (predicate : value -> result value) : M nat :=
  s <- load self ;
  match data s with
  | VList xs => vs <- lift (keep predicate xs) ; _child self (VList vs) "filter" [self]
  | _ => ret self
  end.

Fixpoint fold (fn : value -> value -> result value) (acc : value) (xs : list value) : result value :=
  match xs with
  | [] => Ok acc
  | x :: xs' => rbind (fn acc x) (fun acc' => fold fn acc' xs')
  end.

(** [functools.reduce(fn, xs, initial)], and [functools.reduce(fn, xs)] when
    [initial] is absent: an empty sequence then raises. *)
Definition functools_reduce (fn : value -> value -> result value) (xs : list value)
    (initial : option value) : result value :=
  match initial, xs with
  | Some a, _ => fold fn a xs
  | None, x :: xs' => fold fn x xs'
  | None, [] => Raise TypeError
  end.

(** [reduce(fn, initial=None)] *)
Definition reduce (self : nat) (fn : value -> value -> result value) (initial : value) : M nat :=
  s <- load self ;
  match data s with
  | VList xs =>
      res <- lift (if py_truthy initial then functools_reduce fn xs (Some initial)
                   else functools_reduce fn xs None) ;
      _child self res "reduce" [self]
  | _ => ret self
  end.

(** [d.get(k)] for any key: only a text can be present, a list or a dict is
    unhashable. *)
Definition dict_get_value (k : value) (kvs : list (string * value)) : result value :=
  match k with
  | VStr s => Ok (match dict_get s kvs with Some v => v | None => VNone end)
  | VList _ | VDict _ => Raise TypeError
  | _ => Ok VNone
  end.

Definition get (self : nat) (k : value) : M nat :=
  s <- load self ;
  match data s, int_of k with
  | VDict kvs, _ =>
      v <- lift (dict_get_value k kvs) ;
      _child self v ("." +:+ py_str k) [self]
  | VList xs, Some i =>
      v <- lift (if i <? Z.of_nat (length xs) then py_index xs i else Ok VNone) ;
      _child self v ("[" +:+ py_str k +:+ "]") [self]
  | _, _ => _child self VNone ("." +:+ py_str k) [self]
  end.

(** *** Activations *)

(** [max(0, v)] for a number: the first of the largest. *)
Definition max0 (v : value) : value :=
  match as_num v with
  | Some a => if num_pos a then v else VInt 0
  | None => v
  end.

Definition relu (self : nat) : M nat :=
  s <- load self ;
  out <- _child self (if is_number (data s) then max0 (data s) else data s) "relu" [self] ;
  set_backward out (BRelu self out) ;;
  ret out.

Definition tanh (self : nat) : M nat :=
  s <- load self ;
  match as_num (data s) with
  | Some a =>
      x <- lift (to_float a) ;
      let t := math_tanh x in
      out <- _child self (VFloat t) "tanh" [self] ;
      set_backward out (BTanh self t out) ;;
      ret out
  | None => ret self
  end.

(** *** Backpropagation *)

(** [r.meta.influence += v] *)
Definition add_influence (r : nat) (v : value) : M unit :=
  s <- load r ;
  x <- lift (py_add (VFloat (Meta.influence (meta s))) v) ;
  match x with
  | VFloat x' => set_influence r x'
  | _ => lift (Raise TypeError)
  end.

(** Calling the closure [_backward]. *)
Definition run_backward (b : rule) : M unit :=
  match b with
  | BNone => ret tt
  | BAdd self other out =>
      s <- load self ;
      if is_number (data s) then
        o <- load out ;
        add_influence self (VFloat (Meta.influence (meta o))) ;;
        o <- load out ;
        add_influence other (VFloat (Meta.influence (meta o)))
      else ret tt
  | BMul self other out =>
      s <- load self ;
      t <- load other ;
      if is_number (data s) && is_number (data t) then
        o <- load out ;
        v <- lift (py_mul (data t) (VFloat (Meta.influence (meta o)))) ;
        add_influence self v ;;
        s <- load self ;
        o <- load out ;
        w <- lift (py_mul (data s) (VFloat (Meta.influence (meta o)))) ;
        add_influence other w
      else ret tt
  | BPow self n out =>
      s <- load self ;
      o <- load out ;
      e <- lift (py_sub n (VInt 1)) ;
      p <- lift (py_pow (data s) e) ;
      q <- lift (py_mul n p) ;
      v <- lift (py_mul q (VFloat (Meta.influence (meta o)))) ;
      add_influence self v
  | BRelu self out =>
      o <- load out ;
      match as_num (data o) with
      | Some a =>
          v <- lift (py_mul (VBool (num_pos a)) (VFloat (Meta.influence (meta o)))) ;
          add_influence self v
      | None => ret tt
      end
  | BTanh self t out =>
      o <- load out ;
      add_influence self (VFloat ((1 - t * t) * Meta.influence (meta o))%float)
  end.

(** [build_topo]: the depth-first walk over the parent keys, resolved through
    the registry; [vt] is the pair of [visited] and [topo]. [parents] is the
    loop over [scroll.meta.prev], [visit] the recursive call; the recursion
    is bounded by [fuel]. *)
Fixpoint parents (visit : nat -> gset string * list nat -> option (gset string * list nat))
    (σ : state) (ks : list string) (vt : gset string * list nat)
    : option (gset string * list nat) :=
  match ks with
  | [] => Some vt
  | prev_key :: ks' =>
      match read σ prev_key with
      | Some prev =>
          match visit prev vt with
          | Some vt' => parents visit σ ks' vt'
          | None => None
          end
      | None => parents visit σ ks' vt
      end
  end.

Fixpoint build_topo (fuel : nat) (σ : state) (scroll : nat)
    (vt : gset string * list nat) : option (gset string * list nat) :=
  match fuel with
  | O => None
  | S fuel' =>
      let s := deref σ scroll in
      if decide (key s ∈ vt.1) then Some vt
      else
        match parents (build_topo fuel' σ) σ (Meta.prev (meta s)) (vt.1 ∪ {[key s]}, vt.2) with
        | Some vt' => Some (vt'.1, (vt'.2 ++ [scroll])%list)
        | None => None
        end
  end.

(** [for scroll in order: scroll._backward()] *)
Fixpoint run_all (order : list nat) : M unit :=
  match order with
  | [] => ret tt
  | scroll :: order' =>
      s <- load scroll ;
      run_backward (_backward s) ;;
      run_all order'
  end.

(** The depth the walk can reach: every frame holds a scroll whose key was
    not visited before, so the objects of the heap (and [void]) bound it. *)
Definition topo_fuel (σ : state) : nat := length (heap σ) + 2.

Definition backward (self : nat) : M unit :=
  σ <- get_state ;
  match build_topo (topo_fuel σ) σ self (∅, []) with
  | Some vt =>
      set_influence self 1%float ;;
      run_all (rev vt.2)
  | None => lift (Raise RecursionError)
  end.

(** *** Lineage *)

Definition descriptor (s : t) : value :=
  VDict [ ("key", VStr (key s));
          ("op", VStr (Meta.op (meta s)));
          ("data", VStr (take_str 30 (py_str (data s))));
          ("influence", VFloat (Meta.influence (meta s))) ].

(** [trace(scroll, d)], with [d] as a natural number: [d <= 0] is [d = 0]. *)
Fixpoint trace (σ : state) (d : nat) (scroll : option nat) : list value :=
  match d, scroll with
  | S d', Some r =>
      let s := deref σ r in
      descriptor s :: flat_map (fun prev_key => trace σ d' (read σ prev_key)) (Meta.prev (meta s))
  | _, _ => []
  end.

Definition lineage (σ : state) (self : nat) (depth : Z) : list value :=
  trace σ (Z.to_nat depth) (Some self).

End Operators.

End Scroll.

Import Scroll.

(** ** Values named in the statements *)

(** The key [_generate_key] derives from the data when the clock reads [t]. *)
Definition derived_key (d : value) (t : Z) : string :=
  "/scroll/" +:+ take_str 8 (sha256_hex (py_str d)) +:+ "_" +:+ int_str (t mod 100000).

(** [json.dumps(d, default=str, sort_keys=True)], which does not raise. *)
Definition canonical (d : value) : string :=
  match json_dumps true true d with
  | Ok j => j
  | Raise _ => ""
  end.

(** The text [_compute_hash] digests, and the digest. *)
Definition hashed_text (k : string) (d : value) : string := k +:+ canonical d.
Definition content_hash (k : string) (d : value) : string := sha256_hex (hashed_text k d).

(** The state after one more object is created and registered, and after
    [n] more readings of the clock. *)
Definition push (s : t) (σ : state) : state :=
  State (heap σ ++ [s]) (<[key s := length (heap σ)]> (_registry σ)) (clock σ) (ticks σ).

Definition tick (n : nat) (σ : state) : state :=
  State (heap σ) (_registry σ) (clock σ) (n + ticks σ).

Definition with_rule (r : nat) (b : rule) (σ : state) : state :=
  State (<[r := Make (key (deref σ r)) (data (deref σ r)) (meta (deref σ r)) b]> (heap σ))
        (_registry σ) (clock σ) (ticks σ).

Definition with_influence (r : nat) (x : float) (σ : state) : state :=
  State (<[r := Make (key (deref σ r)) (data (deref σ r))
                     (Meta.with_influence x (meta (deref σ r))) (_backward (deref σ r))]> (heap σ))
        (_registry σ) (clock σ) (ticks σ).

(** The child [_child] creates in [σ]. *)
Definition child_of (σ : state) (d : value) (o : string) (ps : list nat) : t :=
  let k := derived_key d (clock σ (S (ticks σ))) in
  Make k d
       (Meta.Make "dojo/computed" 1 (content_hash k d) (clock σ (ticks σ))
                  (List.map (fun p => key (deref σ p)) ps) o 0%float)
       BNone.

(** The leaf [Scroll(k, d)] creates in [σ], for a key [k] that starts with
    a slash. *)
Definition leaf_of (σ : state) (k : string) (d : value) : t :=
  Make k d (Meta.Make "dojo/scroll" 1 (content_hash k d) (clock σ (ticks σ)) [] "" 0%float) BNone.

Definition influence_of (σ : state) (r : nat) : float := Meta.influence (meta (deref σ r)).

(** What a computation returns, the final state left out. *)
Definition outcome {A : Type} (c : M A) (σ : state) : result A :=
  match c σ with
  | Ok (a, _) => Ok a
  | Raise e => Raise e
  end.

(** An initial state: nothing created, the clock at some instant. *)
Definition blank : state := State [] ∅ (fun n => 1700000000000 + Z.of_nat n) 0.

Open Scope scroll_scope.
Open Scope list_scope.

(** A state holding one leaf, [Scroll("/x", 5)]. *)
Definition one_leaf : state := tick 1 (push (leaf_of blank "/x" (VInt 5)) blank).

(** A state holding one leaf, [Scroll("/t", "abc")]. *)
Definition one_text : state := tick 1 (push (leaf_of blank "/t" (VStr "abc")) blank).

(** The state after [Scroll(-1)], the scroll [__neg__] makes of its factor. *)
Definition with_minus_one (σ : state) : state :=
  let k := derived_key (VInt (-1)) (clock σ (ticks σ)) in
  tick 2 (push (Make k (VInt (-1))
                     (Meta.Make "dojo/scroll" 1 (content_hash k (VInt (-1)))
                                (clock σ (S (ticks σ))) [] "" 0%float) BNone) σ).

(** [out] is the child an operator made in [σ], leaving [σ']: a new object
    carrying [d], labelled [o], whose parents are [ps], registered under its
    key. *)
Definition is_child (σ σ' : state) (out : nat) (d : value) (o : string) (ps : list nat) : Prop :=
  out = length (heap σ)
  /\ data (deref σ' out) = d
  /\ Meta.op (meta (deref σ' out)) = o
  /\ Meta.prev (meta (deref σ' out)) = List.map (fun p => key (deref σ p)) ps
  /\ read σ' (key (deref σ' out)) = Some out.

(** Operands of the same kind, as the dispatch of [__add__] tells them. *)
Definition same_kind (x y : value) : bool :=
  is_number x && is_number y || is_str x && is_str y
  || is_list x && is_list y || is_dict x && is_dict y.

(** A scroll whose closure is the default [lambda: None]. *)
Definition inert (σ : state) (r : nat) : Prop := _backward (deref σ r) = BNone.

(** The keys a walk can visit: those of the objects of the heap. *)
Definition heap_keys (σ : state) : gset string :=
  {[key void]} ∪ list_to_set (key <$> heap σ).

(** The influence a wire object gives back: a zero is not written, so a
    negative zero is read as the default [0.0] (the two compare equal). *)
Definition wire_influence (x : float) : float := if (x =? 0)%float then 0%float else x.

(** The data a wire object carries. *)
Definition wire_data (d : value) : value := if _is_json_safe d then d else VStr (py_str d).

(** The factor [out.data > 0] of the rule of [relu], as a float. *)
Definition indicator (b : bool) : float := if b then 1%float else 0%float.

(** An instance of float [**] on the exponents 0, 1, 2 and -1, where the
    power is one exact operation; other exponents are outside it. *)
Definition pow_int (x y : float) : result float :=
  if (y =? 0)%float then Ok 1%float
  else if (y =? 1)%float then Ok x
  else if (y =? 2)%float then Ok (x * x)%float
  else if (y =? -1)%float then
    if (x =? 0)%float then Raise ZeroDivisionError else Ok (1 / x)%float
  else Raise OverflowError.

(** ** Programs named in the statements *)

Section Programs.
Variable float_pow : float -> float -> result float.

(** The computation of the module's demo:
    [a = Scroll("/compute/a", 2.0); b = Scroll("/compute/b", 3.0);
     c = a * b + a ** 2; c.backward()] *)
Definition demo : M (nat * nat * nat) :=
  a <- __init__ (VStr "/compute/a") (VFloat 2) None ;
  b <- __init__ (VStr "/compute/b") (VFloat 3) None ;
  ab <- __mul__ a (OScroll b) ;
  a2 <- __pow__ float_pow a (VInt 2) ;
  c <- __add__ ab (OScroll a2) ;
  backward float_pow c ;;
  ret (a, b, c).

(** [a = Scroll(ka, x); b = Scroll(kb, y); c = a * b], where [ka] and [kb]
    are any first arguments: a path, or [None] for [Scroll(data=x)]. *)
Definition product (ka kb x y : value) : M (nat * nat * nat) :=
  a <- __init__ ka x None ;
  b <- __init__ kb y None ;
  c <- __mul__ a (OScroll b) ;
  ret (a, b, c).

(** ... followed by [c.backward()] *)
Definition backward_once (ka kb x y : value) : M (nat * nat * nat) :=
  abc <- product ka kb x y ;
  backward float_pow abc.2 ;;
  ret abc.

(** ... followed by [c.backward(); c.backward()] *)
Definition backward_twice (ka kb x y : value) : M (nat * nat * nat) :=
  abc <- product ka kb x y ;
  backward float_pow abc.2 ;;
  backward float_pow abc.2 ;;
  ret abc.

End Programs.

(** The state that [a = Scroll("/compute/a", 2.0);
    b = Scroll("/compute/b", 3.0); c = a * b; c.backward()] leaves: [c] is
    its third object. *)
Definition after_product : state :=
  match backward_once pow_int (VStr "/compute/a") (VStr "/compute/b") (VFloat 2) (VFloat 3) blank with
  | Ok (_, σ) => σ
  | Raise _ => blank
  end.

(** [c = a * b; Scroll.clear(); c.backward()]: the influences of a, b, c. *)
Definition backward_after_clear : M (float * float * float) :=
  abc <- product (VStr "/compute/a") (VStr "/compute/b") (VFloat 2) (VFloat 3) ;
  clear ;;
  backward pow_int abc.2 ;;
  a <- load abc.1.1 ;
  b <- load abc.1.2 ;
  c <- load abc.2 ;
  ret (Meta.influence (meta a), Meta.influence (meta b), Meta.influence (meta c)).

(** [e = Scroll("/x", object()); e2 = Scroll.from_dict(e.to_dict())]: the
    data of both. *)
Definition opaque_roundtrip : M (value * value) :=
  e <- __init__ (VStr "/x") (VObject 0x7f08ad1143e0) None ;
  s <- load e ;
  e' <- from_dict (to_dict s) ;
  s <- load e ;
  s' <- load e' ;
  ret (data s, data s').

(** [Scroll(k, d).meta.hash] *)
Definition hash_of_new (k : string) (d : value) : M string :=
  e <- __init__ (VStr k) d None ;
  s <- load e ;
  ret (Meta.hash (meta s)).

(** [-Scroll(data="abc")]: the data of the result. *)
Definition negate_text : M value :=
  s <- __init__ VNone (VStr "abc") None ;
  n <- __neg__ s ;
  r <- load n ;
  ret (data r).

(** [Scroll(data="abc") - Scroll(data="xyz")]: the data of the result. *)
Definition subtract_texts : M value :=
  s <- __init__ VNone (VStr "abc") None ;
  t <- __init__ VNone (VStr "xyz") None ;
  d <- __sub__ s (OScroll t) ;
  r <- load d ;
  ret (data r).

(** [s = Scroll(data="abc"); r = s.relu()]: both objects, the data and the
    label of [r], and what the registry holds under the key of [r]. *)
Definition relu_text : M (nat * nat * value * string * option nat) :=
  s <- __init__ VNone (VStr "abc") None ;
  r <- relu s ;
  o <- load r ;
  σ <- get_state ;
  ret (s, r, data o, Meta.op (meta o), read σ (key o)).

(** [Scroll(data=[1, 2, 3]).reduce(lambda acc, x: acc * x, 0)]: the data of
    the result. *)
Definition reduce_with_zero : M value :=
  xs <- __init__ VNone (VList [VInt 1; VInt 2; VInt 3]) None ;
  r <- reduce xs py_mul (VInt 0) ;
  s <- load r ;
  ret (data s).

(** [Scroll(data=[1, 2, 3]).get(-4)] *)
Definition get_below_range : M nat :=
  xs <- __init__ VNone (VList [VInt 1; VInt 2; VInt 3]) None ;
  get xs (VInt (-4)).

(** ** Induction on values, through the lists of a list and of a dict *)

Section ValueInd.
Variable P : value -> Prop.
Hypothesis HNone : P VNone.
Hypothesis HBool : forall b, P (VBool b).
Hypothesis HInt : forall n, P (VInt n).
Hypothesis HFloat : forall x, P (VFloat x).
Hypothesis HStr : forall s, P (VStr s).
Hypothesis HList : forall xs, Forall P xs -> P (VList xs).
Hypothesis HDict : forall kvs, Forall (fun kv => P (snd kv)) kvs -> P (VDict kvs).
Hypothesis HObject : forall a, P (VObject a).

Fixpoint value_nested_ind (v : value) : P v :=
  match v with
  | VNone => HNone
  | VBool b => HBool b
  | VInt n => HInt n
  | VFloat x => HFloat x
  | VStr s => HStr s
  | VList xs =>
      HList xs ((fix go (l : list value) : Forall P l :=
                   match l with
                   | [] => @List.Forall_nil _ _
                   | x :: l' => @List.Forall_cons _ _ x l' (value_nested_ind x) (go l')
                   end) xs)
  | VDict kvs =>
      HDict kvs ((fix go (l : list (string * value)) : Forall (fun kv => P (snd kv)) l :=
                    match l with
                    | [] => @List.Forall_nil _ _
                    | kv :: l' => @List.Forall_cons _ _ kv l' (value_nested_ind (snd kv)) (go l')
                    end) kvs)
  | VObject a => HObject a
  end.
End ValueInd.

(** * Properties *)

Set Warnings "-clear-no-such-hyp".

(** ** The runtime functions *)

Lemma rmap_total {A B : Type} (f : A -> result B) (l : list A) :
  Forall (fun x => exists y, f x = Ok y) l -> exists ys, rmap f l = Ok ys.
Proof.
  induction 1 as [|x l [y Hy] _ [ys Hys]]; simpl.
  - by eexists.
  - rewrite Hy. simpl. rewrite Hys. simpl. by eexists.
Qed.

Lemma json_dumps_default_total (sort_keys : bool) (v : value) :
  exists j, json_dumps true sort_keys v = Ok j.
Proof.
  induction v as [| b | n | x | s | xs IH | kvs IH | a] using value_nested_ind;
    simpl; try by eexists.
  - destruct (rmap_total (json_dumps true sort_keys) xs IH) as [ys ->]. simpl. by eexists.
  - destruct (rmap_total (fun kv => rbind (json_dumps true sort_keys (snd kv)) (fun j => Ok (fst kv, j))) kvs) as [ys ->].
    + eapply Forall_impl; [exact IH|]. intros kv [j ->]. simpl. by eexists.
    + simpl. by eexists.
Qed.

Lemma json_dumps_canonical (d : value) : json_dumps true true d = Ok (canonical d).
Proof. unfold canonical. by destruct (json_dumps_default_total true d) as [j ->]. Qed.

Lemma _compute_hash_eq (k : string) (d : value) : _compute_hash k d = Ok (content_hash k d).
Proof. unfold _compute_hash. by rewrite json_dumps_canonical. Qed.

Lemma length_append (s t : string) : String.length (s +:+ t) = (String.length s + String.length t)%nat.
Proof. induction s as [|c s IH]; [done|]. simpl. by f_equal. Qed.

Lemma append_inv_r (s1 s2 t : string) : s1 +:+ t = s2 +:+ t -> s1 = s2.
Proof.
  revert s2. induction s1 as [|c s1 IH]; intros [|c2 s2] H.
  - done.
  - apply (f_equal String.length) in H. rewrite !length_append in H. simpl in H. lia.
  - apply (f_equal String.length) in H. rewrite !length_append in H. simpl in H. lia.
  - cbn [append] in H. injection H as -> H. by rewrite (IH _ H).
Qed.

Lemma append_nil_r (s : string) : s +:+ "" = s.
Proof.
  induction s as [|c s IH]; [done|].
  change (String c (s +:+ "") = String c s). by rewrite IH.
Qed.

Lemma mul_data_not_number_float (v : value) (f : float) :
  as_num v = None -> mul_data v (VFloat f) = Raise TypeError.
Proof. by destruct v. Qed.

Lemma float_of_int_1 : float_of_int 1 = Ok 1%float.
Proof. vm_compute. reflexivity. Qed.

Lemma float_of_int_2 : float_of_int 2 = Ok 2%float.
Proof. vm_compute. reflexivity. Qed.

Lemma float_of_int_0 : float_of_int 0 = Ok 0%float.
Proof. vm_compute. reflexivity. Qed.

Lemma hash8_4 : take_str 8 (sha256_hex (py_str (VFloat 4))) = "fbd04e1a".
Proof. vm_compute. reflexivity. Qed.

Lemma hash8_6 : take_str 8 (sha256_hex (py_str (VFloat 6))) = "8ab31b5a".
Proof. vm_compute. reflexivity. Qed.

Lemma hash8_10 : take_str 8 (sha256_hex (py_str (VFloat 10))) = "f1e42019".
Proof. vm_compute. reflexivity. Qed.

Lemma derived_key_eq (d : value) (t : Z) :
  derived_key d t = "/scroll/" +:+ take_str 8 (sha256_hex (py_str d)) +:+ "_" +:+ int_str (t mod 100000).
Proof. reflexivity. Qed.

Lemma num_mul_total (a b : num) (x y : float) :
  to_float a = Ok x -> to_float b = Ok y -> exists c, num_mul a b = Ok c.
Proof.
  intros Hx Hy. unfold num_mul, num_binop.
  destruct a, b; cbn [to_float] in *; rewrite ?Hx, ?Hy; cbn [rbind]; by eexists.
Qed.

Lemma is_number_as_num (v : value) (a : num) : as_num v = Some a -> is_number v = true.
Proof. by destruct v. Qed.

Lemma as_num_of_num (a : num) : as_num (of_num a) = Some a.
Proof. by destruct a. Qed.

Lemma py_mul_float (v : value) (a : num) (x g : float) :
  as_num v = Some a -> to_float a = Ok x -> py_mul v (VFloat g) = Ok (VFloat (x * g)).
Proof.
  intros Hv Hx. unfold py_mul. rewrite Hv. cbn [as_num]. unfold num_mul, num_binop.
  destruct a as [n|y]; cbn [to_float] in *; rewrite Hx; reflexivity.
Qed.

Lemma py_mul_bool (b : bool) (g : float) :
  py_mul (VBool b) (VFloat g) = Ok (VFloat (indicator b * g)).
Proof.
  eapply py_mul_float; [reflexivity|]. destruct b; [exact float_of_int_1 | exact float_of_int_0].
Qed.

Lemma dict_get_set (k k' : string) (v : value) (d : list (string * value)) :
  dict_get k (dict_set k' v d) = if String.eqb k k' then Some v else dict_get k d.
Proof.
  induction d as [|[k0 v0] d IH]; cbn [dict_set dict_get].
  - by destruct (String.eqb k k').
  - destruct (String.eqb k' k0) eqn:E0; cbn [dict_get].
    + apply String.eqb_eq in E0 as ->. by destruct (String.eqb k k0).
    + rewrite IH. destruct (String.eqb k k0) eqn:E1; [|done].
      apply String.eqb_eq in E1 as ->. by rewrite String.eqb_sym, E0.
Qed.

(** The merge is right-biased: a key of the right operand wins. *)
Lemma dict_get_merge (k : string) (a b : list (string * value)) :
  NoDup b.*1 ->
  dict_get k (dict_merge a b) =
    match dict_get k b with
    | Some v => Some v
    | None => dict_get k a
    end.
Proof.
  unfold dict_merge. revert a. induction b as [|[k0 v0] b IH]; intros a Hnd; [done|].
  cbn [fold_left fst snd dict_get]. apply NoDup_cons in Hnd as [Hk0 Hnd].
  rewrite IH by done. rewrite dict_get_set.
  destruct (String.eqb k k0) eqn:E; [|done].
  apply String.eqb_eq in E as ->.
  assert (dict_get k0 b = None) as ->; [|done].
  clear -Hk0. induction b as [|[k1 v1] b IH]; [done|]. cbn [dict_get].
  cbn [fmap list_fmap fst] in Hk0. rewrite not_elem_of_cons in Hk0. destruct Hk0 as [Hne Hk0].
  destruct (String.eqb k0 k1) eqn:E; [by apply String.eqb_eq in E|]. by apply IH.
Qed.

Lemma rmap_strs (l : list string) :
  rmap (fun v => match v with VStr s => Ok s | _ => Raise TypeError end) (List.map VStr l) = Ok l.
Proof. induction l as [|s l IH]; [done|]. cbn [List.map rmap rbind]. by rewrite IH. Qed.

Lemma Meta_roundtrip (now : Z) (m : Meta.t) :
  Meta.from_dict now (Meta.to_dict m) =
    Ok (Meta.with_influence (wire_influence (Meta.influence m)) m).
Proof.
  destruct m as [schema version hash time prev op influence].
  unfold Meta.to_dict, Meta.from_dict, wire_influence, Meta.with_influence.
  cbn [Meta.schema Meta.version Meta.hash Meta.time Meta.prev Meta.op Meta.influence].
  cbn [py_truthy].
  destruct prev as [|p prev]; cbn [List.map];
    (destruct (String.eqb op "") eqn:Eop; [apply String.eqb_eq in Eop as ->|]);
    destruct (influence =? 0)%float eqn:Ei; cbn [negb];
    unfold Meta.get_str, Meta.get_int, Meta.get_float, Meta.get_strs;
    cbn [dict_set dict_get String.eqb Ascii.eqb Bool.eqb rbind rmap];
    rewrite ?rmap_strs; reflexivity.
Qed.

(** ** The monad and the constructor *)

Lemma bind_ok {A B : Type} (c : M A) (k : A -> M B) (σ σ' : state) (a : A) :
  c σ = Ok (a, σ') -> bind c k σ = k a σ'.
Proof. unfold bind. by intros ->. Qed.

Lemma bind_raise {A B : Type} (c : M A) (k : A -> M B) (σ : state) (e : exn) :
  c σ = Raise e -> bind c k σ = Raise e.
Proof. unfold bind. by intros ->. Qed.

Lemma none_or_data (d : value) : match d with VNone => VNone | _ => d end = d.
Proof. by destruct d. Qed.

Lemma init_leaf (σ : state) (k : string) (d : value) :
  startswith k "/" = true ->
  __init__ (VStr k) d None σ = Ok (length (heap σ), tick 1 (push (leaf_of σ k d) σ)).
Proof.
  intros Hk. unfold __init__, bind, ret, new_meta, now, alloc, register, lift.
  rewrite Hk. simpl. rewrite _compute_hash_eq. reflexivity.
Qed.

Lemma _child_eq (σ : state) (self : nat) (d : value) (o : string) (ps : list nat) :
  _child self d o ps σ = Ok (length (heap σ), tick 2 (push (child_of σ d o ps) σ)).
Proof.
  unfold _child, __init__, _generate_key, bind, ret, get_state, new_meta, now, alloc, register, lift.
  simpl. rewrite none_or_data, _compute_hash_eq. reflexivity.
Qed.

Lemma init_derived (σ : state) (kd d : value) :
  match kd with VStr s => startswith s "/" = false | _ => True end ->
  let d' := match d with VNone => kd | _ => d end in
  let k := derived_key d' (clock σ (ticks σ)) in
  __init__ kd d None σ =
    Ok (length (heap σ),
        tick 2 (push (Make k d' (Meta.Make "dojo/scroll" 1 (content_hash k d')
                                          (clock σ (S (ticks σ))) [] "" 0%float) BNone) σ)).
Proof.
  intros Hkd d' k. unfold __init__, _generate_key, bind, ret, new_meta, now, alloc, register, lift.
  destruct kd as [| | | | s | | |]; try rewrite Hkd; simpl; rewrite _compute_hash_eq; reflexivity.
Qed.

Lemma init_with_meta (σ : state) (k : string) (d : value) (m : Meta.t) :
  startswith k "/" = true -> Meta.hash m <> "" ->
  __init__ (VStr k) d (Some m) σ = Ok (length (heap σ), push (Make k d m BNone) σ).
Proof.
  intros Hk Hh. unfold __init__, bind, ret, alloc, register, lift.
  rewrite Hk. cbn [fst snd py_truthy].
  destruct (String.eqb (Meta.hash m) "") eqn:E; [by apply String.eqb_eq in E|].
  reflexivity.
Qed.

Lemma sha256_hex_not_empty (s : string) : sha256_hex s <> "".
Proof. unfold sha256_hex, Sha256.hexdigest, Sha256.hex32. discriminate. Qed.

(** Every scroll the constructor makes has a path for key and a hash. *)
Lemma init_path_and_hash (σ σ' : state) (kd d : value) (m : option Meta.t) (e : nat) :
  __init__ kd d m σ = Ok (e, σ') ->
  startswith (key (deref σ' e)) "/" = true /\ Meta.hash (meta (deref σ' e)) <> "".
Proof.
  assert (forall (h : list t) (s : t), nth (length h) (h ++ [s]) void = s) as Hnth
    by (intros h s; by rewrite app_nth2, Nat.sub_diag by lia).
  unfold __init__, _generate_key, bind, ret, new_meta, now, alloc, register, lift.
  destruct kd as [| | | | s | | |], m as [m|]; cbn [py_truthy fst snd Meta.hash];
    try destruct (startswith s "/") eqn:Hs; cbn [fst snd];
    rewrite ?_compute_hash_eq;
    try destruct (negb (negb (String.eqb (Meta.hash m) ""))) eqn:Hm;
    intros [= <- <-]; unfold deref; cbn [heap]; rewrite Hnth; cbn [key meta Meta.hash Meta.with_hash];
    (split; [first [exact Hs | reflexivity] | ]).
  all: try apply sha256_hex_not_empty.
  all: try (apply negb_false_iff, negb_true_iff, String.eqb_neq in Hm; exact Hm).
Qed.

#[local] Opaque sha256_hex derived_key content_hash canonical _child __init__.

(** ** Reading the states the operators build *)

Lemma deref_push_old (σ : state) (s : t) (r : nat) :
  (r < length (heap σ))%nat -> deref (push s σ) r = deref σ r.
Proof. intros Hr. unfold deref, push. simpl. by rewrite app_nth1. Qed.

Lemma deref_push_new (σ : state) (s : t) : deref (push s σ) (length (heap σ)) = s.
Proof. unfold deref, push. simpl. by rewrite app_nth2, Nat.sub_diag by lia. Qed.

Lemma deref_tick (n : nat) (σ : state) (r : nat) : deref (tick n σ) r = deref σ r.
Proof. done. Qed.

Lemma nth_insert_eq (h : list t) (r : nat) (s : t) :
  (r < length h)%nat -> nth r (<[r := s]> h) void = s.
Proof.
  intros Hr. apply nth_lookup_Some with (d := void).
  by apply list_lookup_insert_eq.
Qed.

Lemma nth_insert_ne (h : list t) (r r' : nat) (s : t) :
  r ≠ r' -> nth r' (<[r := s]> h) void = nth r' h void.
Proof.
  intros Hr. rewrite !nth_lookup. by rewrite list_lookup_insert_ne.
Qed.

Lemma deref_with_rule_ne (σ : state) (r r' : nat) (b : rule) :
  r ≠ r' -> deref (with_rule r b σ) r' = deref σ r'.
Proof. intros Hr. unfold deref, with_rule. simpl. by apply nth_insert_ne. Qed.

Lemma deref_with_rule_eq (σ : state) (r : nat) (b : rule) :
  (r < length (heap σ))%nat ->
  deref (with_rule r b σ) r = Make (key (deref σ r)) (data (deref σ r)) (meta (deref σ r)) b.
Proof. intros Hr. unfold deref at 1, with_rule. simpl. by apply nth_insert_eq. Qed.

Lemma data_with_rule (σ : state) (r r' : nat) (b : rule) :
  data (deref (with_rule r b σ) r') = data (deref σ r').
Proof.
  destruct (decide (r = r')) as [<-|Hne]; [|by rewrite deref_with_rule_ne].
  destruct (decide (r < length (heap σ))%nat) as [Hlt|Hge].
  - by rewrite deref_with_rule_eq.
  - unfold deref, with_rule. simpl. by rewrite list_insert_ge by lia.
Qed.

Lemma length_heap_push (σ : state) (s : t) : length (heap (push s σ)) = S (length (heap σ)).
Proof. unfold push. simpl. rewrite length_app. simpl. lia. Qed.

Lemma deref_with_influence_ne (σ : state) (r r' : nat) (x : float) :
  r ≠ r' -> deref (with_influence r x σ) r' = deref σ r'.
Proof. intros Hr. unfold deref, with_influence. simpl. by apply nth_insert_ne. Qed.

Lemma deref_with_influence_eq (σ : state) (r : nat) (x : float) :
  (r < length (heap σ))%nat ->
  deref (with_influence r x σ) r =
    Make (key (deref σ r)) (data (deref σ r)) (Meta.with_influence x (meta (deref σ r)))
         (_backward (deref σ r)).
Proof. intros Hr. unfold deref at 1, with_influence. simpl. by apply nth_insert_eq. Qed.

Lemma length_heap_with_influence (σ : state) (r : nat) (x : float) :
  length (heap (with_influence r x σ)) = length (heap σ).
Proof. unfold with_influence. simpl. by rewrite length_insert. Qed.

(** What a change of influence leaves alone. *)
Lemma with_influence_frame (σ : state) (r r' : nat) (x : float) :
  key (deref (with_influence r x σ) r') = key (deref σ r')
  /\ data (deref (with_influence r x σ) r') = data (deref σ r')
  /\ _backward (deref (with_influence r x σ) r') = _backward (deref σ r')
  /\ Meta.prev (meta (deref (with_influence r x σ) r')) = Meta.prev (meta (deref σ r')).
Proof.
  destruct (decide (r = r')) as [<-|Hne]; [|by rewrite deref_with_influence_ne].
  destruct (decide (r < length (heap σ))%nat) as [Hlt|Hge].
  - by rewrite deref_with_influence_eq.
  - unfold deref, with_influence. simpl. by rewrite list_insert_ge by lia.
Qed.

Lemma data_with_influence (σ : state) (r r' : nat) (x : float) :
  data (deref (with_influence r x σ) r') = data (deref σ r').
Proof. apply with_influence_frame. Qed.

Lemma rule_with_influence (σ : state) (r r' : nat) (x : float) :
  _backward (deref (with_influence r x σ) r') = _backward (deref σ r').
Proof. apply with_influence_frame. Qed.

Lemma influence_with_influence_eq (σ : state) (r : nat) (x : float) :
  (r < length (heap σ))%nat -> influence_of (with_influence r x σ) r = x.
Proof. intros Hr. unfold influence_of. by rewrite deref_with_influence_eq. Qed.

Lemma influence_with_influence_ne (σ : state) (r r' : nat) (x : float) :
  r ≠ r' -> influence_of (with_influence r x σ) r' = influence_of σ r'.
Proof. intros Hr. unfold influence_of. by rewrite deref_with_influence_ne. Qed.

Lemma read_with_influence (σ : state) (r : nat) (x : float) (k : string) :
  read (with_influence r x σ) k = read σ k.
Proof. reflexivity. Qed.

Lemma key_with_influence (σ : state) (r r' : nat) (x : float) :
  key (deref (with_influence r x σ) r') = key (deref σ r').
Proof. apply with_influence_frame. Qed.

Lemma prev_with_influence (σ : state) (r r' : nat) (x : float) :
  Meta.prev (meta (deref (with_influence r x σ) r')) = Meta.prev (meta (deref σ r')).
Proof. apply with_influence_frame. Qed.

Lemma nth_offset (h l : list t) (i : nat) : nth (length h + i) (h ++ l) void = nth i l void.
Proof. by rewrite app_nth2_plus. Qed.

Lemma insert_offset (h l : list t) (i : nat) (s : t) :
  <[(length h + i)%nat := s]> (h ++ l) = h ++ <[i := s]> l.
Proof. by rewrite insert_app_r. Qed.

Lemma app_cons_assoc (h l : list t) (s : t) : (h ++ l) ++ [s] = h ++ (l ++ [s]).
Proof. by rewrite app_assoc. Qed.

Lemma child_pushed (σ : state) (d : value) (o : string) (ps : list nat) (b : rule) :
  let out := length (heap σ) in
  deref (with_rule out b (tick 2 (push (child_of σ d o ps) σ))) out =
    Make (key (child_of σ d o ps)) d (meta (child_of σ d o ps)) b.
Proof.
  intros out. rewrite deref_with_rule_eq.
  - by rewrite deref_tick, deref_push_new.
  - unfold tick. cbn [heap]. rewrite length_heap_push. lia.
Qed.

Lemma is_child_pushed (σ : state) (d : value) (o : string) (ps : list nat) (b : rule) :
  is_child σ (with_rule (length (heap σ)) b (tick 2 (push (child_of σ d o ps) σ)))
           (length (heap σ)) d o ps.
Proof.
  unfold is_child. rewrite child_pushed. cbn [data meta key child_of Meta.op Meta.prev].
  repeat split. unfold read, with_rule, tick, push. cbn [_registry key].
  apply lookup_insert_eq.
Qed.

Lemma deref_with_minus_one_old (σ : state) (r : nat) :
  (r < length (heap σ))%nat -> deref (with_minus_one σ) r = deref σ r.
Proof. intros Hr. unfold with_minus_one. by rewrite deref_tick, deref_push_old. Qed.

Lemma length_with_minus_one (σ : state) :
  length (heap (with_minus_one σ)) = S (length (heap σ)).
Proof. unfold with_minus_one, tick. cbn [heap]. apply length_heap_push. Qed.

Lemma data_minus_one (σ : state) : data (deref (with_minus_one σ) (length (heap σ))) = VInt (-1).
Proof. unfold with_minus_one. by rewrite deref_tick, deref_push_new. Qed.

(** ** The operators, as equations on the state *)

Lemma add_eq (σ : state) (a b : nat) (res : value) :
  add_data (data (deref σ a)) (data (deref σ b)) = Ok res ->
  __add__ a (OScroll b) σ =
    Ok (length (heap σ),
        with_rule (length (heap σ)) (BAdd a b (length (heap σ)))
                  (tick 2 (push (child_of σ res "+" [a; b]) σ))).
Proof.
  intros Hres. unfold __add__, as_scroll, load, lift, set_backward.
  unfold bind at 1. unfold ret at 1. unfold bind at 1. unfold bind at 1.
  unfold bind at 1. rewrite Hres. unfold bind at 1. rewrite _child_eq.
  unfold bind, ret. reflexivity.
Qed.

Lemma add_raise (σ : state) (a b : nat) (e : exn) :
  add_data (data (deref σ a)) (data (deref σ b)) = Raise e ->
  __add__ a (OScroll b) σ = Raise e.
Proof.
  intros Hres. unfold __add__, as_scroll, load, lift, bind, ret. by rewrite Hres.
Qed.

Lemma mul_eq (σ : state) (a b : nat) (res : value) :
  mul_data (data (deref σ a)) (data (deref σ b)) = Ok res ->
  __mul__ a (OScroll b) σ =
    Ok (length (heap σ),
        with_rule (length (heap σ)) (BMul a b (length (heap σ)))
                  (tick 2 (push (child_of σ res "*" [a; b]) σ))).
Proof.
  intros Hres. unfold __mul__, as_scroll, load, lift, set_backward.
  unfold bind at 1. unfold ret at 1. unfold bind at 1. unfold bind at 1.
  unfold bind at 1. rewrite Hres. unfold bind at 1. rewrite _child_eq.
  unfold bind, ret. reflexivity.
Qed.

Lemma mul_raise (σ : state) (a b : nat) (e : exn) :
  mul_data (data (deref σ a)) (data (deref σ b)) = Raise e ->
  __mul__ a (OScroll b) σ = Raise e.
Proof.
  intros Hres. unfold __mul__, as_scroll, load, lift, bind, ret. by rewrite Hres.
Qed.

Lemma add_child (σ : state) (a b : nat) (res : value) :
  add_data (data (deref σ a)) (data (deref σ b)) = Ok res ->
  exists σ', __add__ a (OScroll b) σ = Ok (length (heap σ), σ')
             /\ is_child σ σ' (length (heap σ)) res "+" [a; b]
             /\ _backward (deref σ' (length (heap σ))) = BAdd a b (length (heap σ)).
Proof.
  intros Hres. eexists. split; [by apply add_eq|]. split; [apply is_child_pushed|].
  by rewrite child_pushed.
Qed.

Lemma neg_unfold (σ : state) (a : nat) :
  __neg__ a σ = __mul__ a (OScroll (length (heap σ))) (with_minus_one σ).
Proof.
  unfold __neg__, __mul__ at 1, as_scroll.
  erewrite bind_ok by (apply init_derived; exact I). reflexivity.
Qed.

Lemma neg_eq (σ : state) (a : nat) (res : value) :
  (a < length (heap σ))%nat ->
  mul_data (data (deref σ a)) (VInt (-1)) = Ok res ->
  exists σ',
    __neg__ a σ = Ok (S (length (heap σ)), σ')
    /\ data (deref σ' (S (length (heap σ)))) = res
    /\ length (heap σ') = S (S (length (heap σ)))
    /\ (forall r, (r < length (heap σ))%nat -> data (deref σ' r) = data (deref σ r)).
Proof.
  intros Ha Hres. rewrite neg_unfold.
  erewrite mul_eq by (by rewrite deref_with_minus_one_old, data_minus_one).
  rewrite <- (length_with_minus_one σ). eexists. split; [reflexivity|].
  rewrite child_pushed. cbn [data]. split; [done|]. split.
  - unfold with_rule. cbn [heap]. rewrite length_insert. unfold tick. cbn [heap].
    by rewrite length_heap_push.
  - intros r Hr. rewrite data_with_rule, deref_tick, deref_push_old
      by (rewrite length_with_minus_one; lia).
    by rewrite deref_with_minus_one_old.
Qed.

Lemma neg_raise (σ : state) (a : nat) (e : exn) :
  (a < length (heap σ))%nat ->
  mul_data (data (deref σ a)) (VInt (-1)) = Raise e ->
  __neg__ a σ = Raise e.
Proof.
  intros Ha Hres. rewrite neg_unfold. apply mul_raise.
  by rewrite deref_with_minus_one_old, data_minus_one.
Qed.

Lemma relu_eq (σ : state) (a : nat) :
  relu a σ =
    Ok (length (heap σ),
        with_rule (length (heap σ)) (BRelu a (length (heap σ)))
          (tick 2 (push (child_of σ (if is_number (data (deref σ a)) then max0 (data (deref σ a))
                                     else data (deref σ a)) "relu" [a]) σ))).
Proof.
  unfold relu, load, set_backward. unfold bind at 1. unfold bind at 1. rewrite _child_eq.
  unfold bind, ret. reflexivity.
Qed.

Section Power.
Variable float_pow : float -> float -> result float.

Lemma pow_eq (σ : state) (a : nat) (n res : value) :
  py_pow float_pow (data (deref σ a)) n = Ok res ->
  __pow__ float_pow a n σ =
    Ok (length (heap σ),
        with_rule (length (heap σ)) (BPow a n (length (heap σ)))
                  (tick 2 (push (child_of σ res ("**" +:+ py_str n) [a]) σ))).
Proof.
  intros Hres. unfold __pow__, load, lift, set_backward.
  unfold bind at 1. unfold bind at 1. rewrite Hres. unfold bind at 1. rewrite _child_eq.
  unfold bind, ret. reflexivity.
Qed.

Lemma pow_raise (σ : state) (a : nat) (n : value) (e : exn) :
  py_pow float_pow (data (deref σ a)) n = Raise e ->
  __pow__ float_pow a n σ = Raise e.
Proof.
  intros Hres. unfold __pow__, load, lift, bind, ret. by rewrite Hres.
Qed.

Lemma py_pow_not_number (v n : value) : as_num v = None -> py_pow float_pow v n = Raise TypeError.
Proof. intros Hv. unfold py_pow. by rewrite Hv. Qed.

Lemma py_pow_minus_one (v z : value) :
  py_pow float_pow v (VInt (-1)) = Ok z -> exists f, z = VFloat f.
Proof.
  unfold py_pow. destruct (as_num v) as [[n|x]|]; [| |done]; cbn [as_num].
  - cbn [Z.leb Z.compare]. destruct (float_of_int n); [|done]. cbn [rbind].
    destruct (float_of_int (-1)); [|done]. cbn [rbind].
    destruct (float_pow a a0); [|done]. cbn [rbind]. intros [= <-]. by eexists.
  - cbn [to_float rbind]. destruct (float_of_int (-1)); [|done]. cbn [rbind].
    destruct (float_pow x a); [|done]. cbn [rbind]. intros [= <-]. by eexists.
Qed.

End Power.

Lemma pow_2_2 (float_pow : float -> float -> result float) :
  float_pow 2%float 2%float = Ok 4%float ->
  py_pow float_pow (VFloat 2) (VInt 2) = Ok (VFloat 4).
Proof.
  intros H. unfold py_pow. cbn [as_num to_float rbind]. rewrite float_of_int_2.
  cbn [rbind]. rewrite H. reflexivity.
Qed.

(** ** The walk of [build_topo] *)

Lemma size_list_to_set_le (l : list string) :
  (size (list_to_set l : gset string) ≤ length l)%nat.
Proof.
  induction l as [|x l IH].
  - by rewrite list_to_set_nil, size_empty.
  - rewrite list_to_set_cons, size_union_alt, size_singleton.
    assert (size (list_to_set l ∖ {[x]} : gset string) ≤ size (list_to_set l : gset string))%nat
      by (apply subseteq_size; set_solver).
    simpl. lia.
Qed.

Lemma size_heap_keys (σ : state) : (size (heap_keys σ) < topo_fuel σ)%nat.
Proof.
  unfold heap_keys, topo_fuel. rewrite size_union_alt, size_singleton.
  pose proof (size_list_to_set_le (key <$> heap σ)) as Hle.
  rewrite length_fmap in Hle.
  assert (size (list_to_set (key <$> heap σ) ∖ {[key void]} : gset string)
          ≤ size (list_to_set (key <$> heap σ) : gset string))%nat
    by (apply subseteq_size; set_solver).
  lia.
Qed.

Lemma key_in_heap_keys (σ : state) (r : nat) : key (deref σ r) ∈ heap_keys σ.
Proof.
  unfold heap_keys, deref. rewrite nth_lookup.
  destruct (heap σ !! r) as [s|] eqn:Hs; simpl; [|set_solver].
  apply elem_of_union_r, elem_of_list_to_set, list_elem_of_fmap.
  exists s. split; [done|]. by eapply list_elem_of_lookup_2.
Qed.

Lemma parents_total (visit : nat -> gset string * list nat -> option (gset string * list nat))
    (σ : state) (K : gset string) (n : nat) :
  (forall r vt, (size (K ∖ vt.1) < n)%nat ->
     exists vt', visit r vt = Some vt' /\ vt.1 ⊆ vt'.1) ->
  forall ks vt, (size (K ∖ vt.1) < n)%nat ->
    exists vt', parents visit σ ks vt = Some vt' /\ vt.1 ⊆ vt'.1.
Proof.
  intros Hvisit ks. induction ks as [|k ks IH]; intros vt Hvt; simpl.
  - by exists vt.
  - destruct (read σ k) as [p|]; [|by apply IH].
    destruct (Hvisit p vt Hvt) as (vt1 & -> & Hsub).
    destruct (IH vt1) as (vt2 & Hp & Hsub2).
    + eapply Nat.le_lt_trans; [|exact Hvt]. apply subseteq_size. set_solver.
    + exists vt2. split; [done|]. set_solver.
Qed.

Lemma build_topo_total (fuel : nat) (σ : state) (r : nat) (vt : gset string * list nat) :
  (size (heap_keys σ ∖ vt.1) < fuel)%nat ->
  exists vt', build_topo fuel σ r vt = Some vt' /\ vt.1 ⊆ vt'.1.
Proof.
  revert r vt. induction fuel as [|fuel IH]; intros r vt Hvt; [lia|].
  simpl. destruct (decide (key (deref σ r) ∈ vt.1)) as [Hin|Hnin].
  - by exists vt.
  - destruct (parents_total (build_topo fuel σ) σ (heap_keys σ) fuel IH
                (Meta.prev (meta (deref σ r))) (vt.1 ∪ {[key (deref σ r)]}, vt.2))
      as (vt1 & -> & Hsub).
    + simpl. pose proof (key_in_heap_keys σ r) as Hk.
      assert (heap_keys σ ∖ (vt.1 ∪ {[key (deref σ r)]}) ⊂ heap_keys σ ∖ vt.1) as Hlt
        by set_solver.
      apply subset_size in Hlt. lia.
    + eexists. split; [done|]. simpl in *. set_solver.
Qed.

Lemma build_topo_completes (σ : state) (self : nat) :
  exists vt, build_topo (topo_fuel σ) σ self (∅, []) = Some vt.
Proof.
  destruct (build_topo_total (topo_fuel σ) σ self (∅, [])) as (vt & H & _); [|by exists vt].
  simpl. eapply Nat.le_lt_trans; [|apply size_heap_keys].
  apply subseteq_size. set_solver.
Qed.

Lemma build_topo_seen (f : nat) (σ : state) (r : nat) (vt : gset string * list nat) :
  key (deref σ r) ∈ vt.1 -> build_topo (S f) σ r vt = Some vt.
Proof. intros Hin. simpl. by rewrite decide_True. Qed.

Lemma build_topo_new (f : nat) (σ : state) (r : nat) (vt : gset string * list nat) :
  key (deref σ r) ∉ vt.1 ->
  build_topo (S f) σ r vt =
    match parents (build_topo f σ) σ (Meta.prev (meta (deref σ r)))
                  (vt.1 ∪ {[key (deref σ r)]}, vt.2) with
    | Some vt' => Some (vt'.1, vt'.2 ++ [r])
    | None => None
    end.
Proof. intros Hin. simpl. by rewrite decide_False. Qed.

Lemma build_topo_leaf (f : nat) (σ : state) (r : nat) (vt : gset string * list nat) :
  key (deref σ r) ∉ vt.1 -> Meta.prev (meta (deref σ r)) = [] ->
  build_topo (S f) σ r vt = Some (vt.1 ∪ {[key (deref σ r)]}, vt.2 ++ [r]).
Proof. intros Hin Hp. rewrite build_topo_new by done. by rewrite Hp. Qed.

Lemma parents_resolved (visit : nat -> gset string * list nat -> option (gset string * list nat))
    (σ : state) (k : string) (ks : list string) (vt : gset string * list nat) (p : nat) :
  read σ k = Some p ->
  parents visit σ (k :: ks) vt =
    match visit p vt with
    | Some vt' => parents visit σ ks vt'
    | None => None
    end.
Proof. intros Hr. simpl. by rewrite Hr. Qed.

Lemma parents_nil (visit : nat -> gset string * list nat -> option (gset string * list nat))
    (σ : state) (vt : gset string * list nat) :
  parents visit σ [] vt = Some vt.
Proof. reflexivity. Qed.

Lemma parents_unresolved (visit : nat -> gset string * list nat -> option (gset string * list nat))
    (σ : state) (k : string) (ks : list string) (vt : gset string * list nat) :
  read σ k = None -> parents visit σ (k :: ks) vt = parents visit σ ks vt.
Proof. intros Hr. simpl. by rewrite Hr. Qed.

Lemma build_topo_mono (σ : state) (f f' : nat) :
  (f <= f')%nat ->
  forall r vt res, build_topo f σ r vt = Some res -> build_topo f' σ r vt = Some res.
Proof.
  revert f'. induction f as [|f IH]; intros f' Hle r vt res; [done|].
  destruct f' as [|f']; [lia|]. simpl.
  destruct (decide (key (deref σ r) ∈ vt.1)); [done|].
  assert (forall ks vt0 res0,
            parents (build_topo f σ) σ ks vt0 = Some res0 ->
            parents (build_topo f' σ) σ ks vt0 = Some res0) as Hp.
  { induction ks as [|k ks IHks]; intros vt0 res0; simpl; [done|].
    destruct (read σ k) as [p|]; [|apply IHks].
    destruct (build_topo f σ p vt0) as [vt1|] eqn:Hv; [|done].
    rewrite (IH f' ltac:(lia) _ _ _ Hv). apply IHks. }
  destruct (parents (build_topo f σ) σ _ _) as [vt1|] eqn:Hp1; [|done].
  by rewrite (Hp _ _ _ Hp1).
Qed.

Lemma backward_eq (float_pow : float -> float -> result float) (σ : state) (self f : nat)
    (vt : gset string * list nat) :
  build_topo f σ self (∅, []) = Some vt ->
  backward float_pow self σ =
    bind (set_influence self 1%float) (fun _ => run_all float_pow (rev vt.2)) σ.
Proof.
  intros Hvt. unfold backward. unfold bind at 1, get_state.
  destruct (build_topo_completes σ self) as [vt' Hvt'].
  destruct (Nat.le_ge_cases f (topo_fuel σ)) as [Hle|Hle].
  - by rewrite (build_topo_mono σ f _ Hle _ _ _ Hvt).
  - rewrite Hvt'. by rewrite (build_topo_mono σ _ f Hle _ _ _ Hvt') in Hvt; simplify_eq.
Qed.

(** A node all of whose resolvable parents are itself or leaves: the walk
    lists some of those leaves, then the node. *)
Lemma parents_shallow (f : nat) (σ : state) (c : nat) (ks : list string) :
  (forall k p, k ∈ ks -> read σ k = Some p ->
     p = c \/ (Meta.prev (meta (deref σ p)) = [] /\ inert σ p)) ->
  forall vt, key (deref σ c) ∈ vt.1 ->
    exists V l, parents (build_topo (S f) σ) σ ks vt = Some (V, vt.2 ++ l)
                /\ vt.1 ⊆ V /\ Forall (inert σ) l.
Proof.
  induction ks as [|k ks IH]; intros Hks vt Hc.
  - exists vt.1, []. rewrite app_nil_r. by destruct vt.
  - assert (forall k p, k ∈ ks -> read σ k = Some p ->
              p = c \/ (Meta.prev (meta (deref σ p)) = [] /\ inert σ p)) as Hks'
      by (intros ???; apply Hks; by right).
    destruct (read σ k) as [p|] eqn:Hr.
    + rewrite (parents_resolved _ _ _ _ _ _ Hr).
      destruct (decide (key (deref σ p) ∈ vt.1)) as [Hin|Hnin].
      * rewrite build_topo_seen by done. by apply IH.
      * destruct (Hks k p (list_elem_of_here _ _) Hr) as [->|[Hp Hi]]; [done|].
        rewrite build_topo_leaf by done.
        destruct (IH Hks' (vt.1 ∪ {[key (deref σ p)]}, vt.2 ++ [p])) as (V & l & -> & Hsub & Hl).
        { simpl. set_solver. }
        exists V, (p :: l). simpl in *. rewrite <- app_assoc. split; [done|].
        split; [set_solver|]. by constructor.
    + rewrite (parents_unresolved _ _ _ _ _ Hr). by apply IH.
Qed.

Lemma build_topo_shallow (f : nat) (σ : state) (c : nat) :
  (forall k p, k ∈ Meta.prev (meta (deref σ c)) -> read σ k = Some p ->
     p = c \/ (Meta.prev (meta (deref σ p)) = [] /\ inert σ p)) ->
  exists V l, build_topo (S (S f)) σ c (∅, []) = Some (V, l ++ [c]) /\ Forall (inert σ) l.
Proof.
  intros Hks. rewrite build_topo_new by set_solver. cbn [fst snd].
  destruct (parents_shallow f σ c _ Hks (∅ ∪ {[key (deref σ c)]}, [])) as (V & l & -> & _ & Hl).
  { simpl. set_solver. }
  by exists V, l.
Qed.

(** ** The closures, as equations on the state *)

Lemma set_influence_eq (r : nat) (x : float) (σ : state) :
  set_influence r x σ = Ok (tt, with_influence r x σ).
Proof. reflexivity. Qed.

Lemma add_influence_float (r : nat) (y : float) (σ : state) :
  add_influence r (VFloat y) σ = Ok (tt, with_influence r (influence_of σ r + y)%float σ).
Proof. reflexivity. Qed.

Section Closures.
Variable float_pow : float -> float -> result float.
Variable math_tanh : float -> float.

Lemma run_all_nil (σ : state) : run_all float_pow [] σ = Ok (tt, σ).
Proof. reflexivity. Qed.

Lemma run_all_cons (r : nat) (l : list nat) (σ σ' : state) :
  run_backward float_pow (_backward (deref σ r)) σ = Ok (tt, σ') ->
  run_all float_pow (r :: l) σ = run_all float_pow l σ'.
Proof. intros H. cbn [run_all]. unfold bind, load. by rewrite H. Qed.

Lemma run_none (σ : state) : run_backward float_pow BNone σ = Ok (tt, σ).
Proof. reflexivity. Qed.

Lemma run_add (σ : state) (self other out : nat) :
  is_number (data (deref σ self)) = true ->
  run_backward float_pow (BAdd self other out) σ =
    let σ1 := with_influence self (influence_of σ self + influence_of σ out)%float σ in
    Ok (tt, with_influence other (influence_of σ1 other + influence_of σ1 out)%float σ1).
Proof.
  intros Hn. cbn [run_backward]. unfold bind at 1, load at 1. rewrite Hn.
  unfold bind at 1, load at 1. unfold bind at 1. rewrite add_influence_float.
  unfold bind at 1, load at 1. rewrite add_influence_float. reflexivity.
Qed.

Lemma run_mul (σ : state) (self other out : nat) (a b : num) (x y : float) :
  as_num (data (deref σ self)) = Some a -> to_float a = Ok x ->
  as_num (data (deref σ other)) = Some b -> to_float b = Ok y ->
  run_backward float_pow (BMul self other out) σ =
    let σ1 := with_influence self (influence_of σ self + y * influence_of σ out)%float σ in
    Ok (tt, with_influence other (influence_of σ1 other + x * influence_of σ1 out)%float σ1).
Proof.
  intros Ha Hx Hb Hy. cbn [run_backward].
  assert (forall v n, as_num v = Some n -> is_number v = true) as Hnum
    by (intros [] ?; done).
  unfold bind at 1, load at 1. unfold bind at 1, load at 1.
  rewrite (Hnum _ _ Ha), (Hnum _ _ Hb). cbn [andb].
  unfold bind at 1, load at 1. unfold bind at 1.
  rewrite (py_mul_float _ _ _ _ Hb Hy). cbn [lift].
  unfold bind at 1. rewrite add_influence_float.
  unfold bind at 1, load at 1. unfold bind at 1, load at 1. unfold bind at 1.
  rewrite data_with_influence, (py_mul_float _ _ _ _ Ha Hx). cbn [lift].
  rewrite add_influence_float. reflexivity.
Qed.
Lemma run_pow (σ : state) (self out : nat) (n e p q : value) (v : float) :
  py_sub n (VInt 1) = Ok e ->
  py_pow float_pow (data (deref σ self)) e = Ok p ->
  py_mul n p = Ok q ->
  py_mul q (VFloat (influence_of σ out)) = Ok (VFloat v) ->
  run_backward float_pow (BPow self n out) σ =
    Ok (tt, with_influence self (influence_of σ self + v)%float σ).
Proof.
  intros He Hp Hq Hv. cbn [run_backward]. unfold bind, load, lift.
  rewrite He, Hp, Hq. unfold influence_of in Hv. rewrite Hv.
  by rewrite add_influence_float.
Qed.

Lemma run_relu (σ : state) (self out : nat) (a : num) :
  as_num (data (deref σ out)) = Some a ->
  run_backward float_pow (BRelu self out) σ =
    Ok (tt, with_influence self
              (influence_of σ self + indicator (num_pos a) * influence_of σ out)%float σ).
Proof.
  intros Ha. cbn [run_backward]. unfold bind at 1, load at 1. rewrite Ha.
  unfold bind at 1. rewrite py_mul_bool. cbn [lift]. by rewrite add_influence_float.
Qed.

Lemma run_relu_not_number (σ : state) (self out : nat) :
  as_num (data (deref σ out)) = None ->
  run_backward float_pow (BRelu self out) σ = Ok (tt, σ).
Proof. intros Ha. cbn [run_backward]. unfold bind at 1, load at 1. by rewrite Ha. Qed.

Lemma run_tanh (σ : state) (self out : nat) (t : float) :
  run_backward float_pow (BTanh self t out) σ =
    Ok (tt, with_influence self
              (influence_of σ self + (1 - t * t) * influence_of σ out)%float σ).
Proof. reflexivity. Qed.

Lemma tanh_eq (σ : state) (a : nat) (n : num) (x : float) :
  as_num (data (deref σ a)) = Some n -> to_float n = Ok x ->
  tanh math_tanh a σ =
    Ok (length (heap σ),
        with_rule (length (heap σ)) (BTanh a (math_tanh x) (length (heap σ)))
          (tick 2 (push (child_of σ (VFloat (math_tanh x)) "tanh" [a]) σ))).
Proof.
  intros Hn Hx. unfold tanh, load, set_backward. unfold bind at 1. rewrite Hn.
  unfold bind at 1. rewrite Hx. cbn [lift]. unfold bind at 1. rewrite _child_eq.
  unfold bind, ret. reflexivity.
Qed.

Lemma run_all_inert (σ : state) (l : list nat) :
  Forall (inert σ) l -> run_all float_pow l σ = Ok (tt, σ).
Proof.
  induction 1 as [|r l Hr _ IH]; [done|].
  erewrite run_all_cons; [exact IH|]. rewrite Hr. apply run_none.
Qed.

(** One backward pass from a product [c = a * b] of two leaves. *)
Lemma backward_product_graph (σ : state) (a b c : nat) (na nb : num) (x y : float) :
  _backward (deref σ c) = BMul a b c ->
  (forall k p, k ∈ Meta.prev (meta (deref σ c)) -> read σ k = Some p ->
     p = c \/ (Meta.prev (meta (deref σ p)) = [] /\ inert σ p)) ->
  as_num (data (deref σ a)) = Some na -> to_float na = Ok x ->
  as_num (data (deref σ b)) = Some nb -> to_float nb = Ok y ->
  backward float_pow c σ =
    let σ0 := with_influence c 1%float σ in
    let σ1 := with_influence a (influence_of σ0 a + y * influence_of σ0 c)%float σ0 in
    Ok (tt, with_influence b (influence_of σ1 b + x * influence_of σ1 c)%float σ1).
Proof.
  intros Bc Hks Ha Hx Hb Hy.
  destruct (build_topo_shallow 0 σ c Hks) as (V & l & Htopo & Hl).
  rewrite (backward_eq float_pow σ c 2 _ Htopo). cbn [snd].
  rewrite rev_app_distr. cbn [rev app].
  unfold bind at 1. rewrite set_influence_eq.
  erewrite run_all_cons; cycle 1.
  { rewrite rule_with_influence, Bc. eapply run_mul; rewrite ?data_with_influence; eassumption. }
  cbn zeta. apply run_all_inert.
  apply Forall_rev. eapply Forall_impl; [exact Hl|].
  intros r Hr. unfold inert. by rewrite !rule_with_influence.
Qed.

End Closures.

(** ** Tactics for the states of a program *)

Ltac fresh_key :=
  cbn [fst snd]; rewrite ?not_elem_of_union, ?not_elem_of_singleton;
  repeat split; solve [ congruence | set_solver ].

Ltac seen_key :=
  cbn [fst snd]; rewrite ?elem_of_union, ?elem_of_singleton; tauto.

Ltac observe :=
  rewrite ?data_with_influence, ?rule_with_influence, ?length_heap_with_influence.

Ltac influences :=
  repeat first
    [ rewrite influence_with_influence_eq by (observe; lia)
    | rewrite influence_with_influence_ne by lia ].

Ltac norm :=
  repeat (progress (
    unfold push, tick, with_rule, with_influence, child_of, leaf_of, deref, influence_of;
    cbn [heap _registry clock ticks key data meta _backward length app Nat.add nth List.map
         Meta.with_influence Meta.influence Meta.prev Meta.schema Meta.version Meta.hash
         Meta.time Meta.op fst snd insert list_insert of_num
         PrimFloat.mul PrimFloat.add PrimFloat.sub];
    rewrite ?length_app, ?app_cons_assoc, ?nth_offset, ?insert_offset)).

Ltac lookup :=
  unfold read; cbn [_registry];
  repeat first [ rewrite lookup_insert_eq; reflexivity
               | rewrite lookup_insert_ne by congruence ].

Ltac valid_ref Hlen := rewrite ?length_heap_with_influence, Hlen; lia.

(** ** The graphs of the two programs *)

Section Graph.
Variable float_pow : float -> float -> result float.

(** The graph of [c = a * b + a ** 2], whatever the rest of the state. *)
Lemma backward_demo_graph (σ : state) (a b ab a2 c : nat) (ka kb km kp kc : string) :
  float_pow 2%float 1%float = Ok 2%float ->
  (a < b < ab)%nat -> (ab < a2 < c)%nat -> (c < length (heap σ))%nat ->
  NoDup [ka; kb; km; kp; kc] ->
  key (deref σ a) = ka -> key (deref σ b) = kb -> key (deref σ ab) = km ->
  key (deref σ a2) = kp -> key (deref σ c) = kc ->
  Meta.prev (meta (deref σ a)) = [] -> Meta.prev (meta (deref σ b)) = [] ->
  Meta.prev (meta (deref σ ab)) = [ka; kb] -> Meta.prev (meta (deref σ a2)) = [ka] ->
  Meta.prev (meta (deref σ c)) = [km; kp] ->
  read σ ka = Some a -> read σ kb = Some b -> read σ km = Some ab ->
  read σ kp = Some a2 ->
  data (deref σ a) = VFloat 2 -> data (deref σ b) = VFloat 3 ->
  is_number (data (deref σ ab)) = true ->
  _backward (deref σ a) = BNone -> _backward (deref σ b) = BNone ->
  _backward (deref σ ab) = BMul a b ab -> _backward (deref σ a2) = BPow a (VInt 2) a2 ->
  _backward (deref σ c) = BAdd ab a2 c ->
  influence_of σ a = 0%float -> influence_of σ b = 0%float ->
  influence_of σ ab = 0%float -> influence_of σ a2 = 0%float ->
  exists σ',
    backward float_pow c σ = Ok (tt, σ')
    /\ (forall r, data (deref σ' r) = data (deref σ r))
    /\ influence_of σ' a = 7%float
    /\ influence_of σ' b = 2%float
    /\ influence_of σ' c = 1%float.
Proof.
  intros Hp1 Hab Hc Hlen Hnd Ka Kb Km Kp Kc Pa Pb Pm Pp Pc Ra Rb Rm Rp Da Db Dm
    Ba Bb Bm Bp Bc Ia Ib Im Ip.
  apply NoDup_cons in Hnd as [N1 Hnd]. apply NoDup_cons in Hnd as [N2 Hnd].
  apply NoDup_cons in Hnd as [N3 Hnd]. apply NoDup_cons in Hnd as [N4 _].
  repeat rewrite not_elem_of_cons in N1. repeat rewrite not_elem_of_cons in N2.
  repeat rewrite not_elem_of_cons in N3. repeat rewrite not_elem_of_cons in N4.
  destruct N1 as (? & ? & ? & ? & _), N2 as (? & ? & ? & _), N3 as (? & ? & _), N4 as (? & _).
  assert (exists V, build_topo 3 σ c (∅, []) = Some (V, [a; b; ab; a2; c])) as [V Htopo].
  { rewrite build_topo_new by (rewrite Kc; fresh_key). rewrite Kc, Pc.
    erewrite parents_resolved by exact Rm.
    rewrite build_topo_new by (rewrite Km; fresh_key). rewrite Km, Pm.
    erewrite parents_resolved by exact Ra.
    rewrite build_topo_leaf by (rewrite ?Ka; first [fresh_key | done]). rewrite Ka.
    erewrite parents_resolved by exact Rb.
    rewrite build_topo_leaf by (rewrite ?Kb; first [fresh_key | done]). rewrite Kb.
    rewrite parents_nil. cbn [fst snd app].
    erewrite parents_resolved by exact Rp.
    rewrite build_topo_new by (rewrite Kp; fresh_key). rewrite Kp, Pp.
    erewrite parents_resolved by exact Ra.
    rewrite build_topo_seen by (rewrite Ka; seen_key).
    cbn [parents fst snd app]. by eexists. }
  rewrite (backward_eq float_pow σ c 3 _ Htopo). cbn [snd rev app].
  unfold bind at 1. rewrite set_influence_eq.
  (* c *)
  erewrite run_all_cons; cycle 1.
  { observe. rewrite Bc. apply run_add. observe. exact Dm. }
  cbn zeta.
  (* a ** 2 *)
  erewrite run_all_cons; cycle 1.
  { observe. rewrite Bp. eapply run_pow with (e := VInt 1) (p := VFloat 2) (q := VFloat (2 * 2)%float).
    - reflexivity.
    - observe. rewrite Da. unfold py_pow. cbn [as_num to_float rbind].
      rewrite float_of_int_1. cbn [rbind]. rewrite Hp1. reflexivity.
    - eapply py_mul_float; [reflexivity | exact float_of_int_2].
    - eapply py_mul_float; reflexivity. }
  (* a * b *)
  erewrite run_all_cons; cycle 1.
  { observe. rewrite Bm. eapply run_mul; observe; rewrite ?Da, ?Db; reflexivity. }
  cbn zeta.
  erewrite run_all_cons by (observe; rewrite Bb; apply run_none).
  erewrite run_all_cons by (observe; rewrite Ba; apply run_none).
  rewrite run_all_nil. eexists. split; [reflexivity|].
  split; [intros r; by observe|].
  influences. rewrite Ia, Ib, Im, Ip. repeat split; reflexivity.
Qed.

End Graph.

(** [Scroll(kd, x)] for a number [x]: a new leaf carrying [x], under the
    key given or a derived one. *)
Lemma init_numeric (σ : state) (kd x : value) (a : num) :
  as_num x = Some a ->
  exists k m n,
    __init__ kd x None σ = Ok (length (heap σ), tick n (push (Make k x m BNone) σ))
    /\ Meta.prev m = [] /\ Meta.influence m = 0%float.
Proof.
  intros Ha.
  assert (forall kd', match x with VNone => kd' | _ => x end = x) as Hx by (by destruct x).
  assert (forall kd', match kd' with VStr s => startswith s "/" = false | _ => True end ->
            exists k m n,
              __init__ kd' x None σ = Ok (length (heap σ), tick n (push (Make k x m BNone) σ))
              /\ Meta.prev m = [] /\ Meta.influence m = 0%float) as Hderived.
  { intros kd' Hkd. pose proof (init_derived σ kd' x Hkd) as H. cbn zeta in H.
    rewrite Hx in H. do 3 eexists. split; [exact H|]. done. }
  destruct kd as [| | | | s | | |]; try (by apply Hderived).
  destruct (startswith s "/") eqn:Hs; [|by apply Hderived].
  do 3 eexists. split; [by apply init_leaf|]. done.
Qed.

Lemma product_eq (σ0 : state) (ka kb x y : value) (na nb nc : num) :
  as_num x = Some na -> as_num y = Some nb -> num_mul na nb = Ok nc ->
  exists ka' kb' kc mc ma mb reg t,
    let n := length (heap σ0) in
    product ka kb x y σ0 =
      Ok ((n + 0, n + 1, n + 2)%nat,
          State (heap σ0 ++ [ Make ka' x ma BNone; Make kb' y mb BNone;
                              Make kc (of_num nc) mc (BMul (n + 0) (n + 1) (n + 2)) ])
                (<[kc := (n + 2)%nat]> (<[kb' := (n + 1)%nat]> (<[ka' := (n + 0)%nat]> reg)))
                (clock σ0) t)
    /\ Meta.prev ma = [] /\ Meta.prev mb = [] /\ Meta.prev mc = [ka'; kb']
    /\ Meta.influence ma = 0%float /\ Meta.influence mb = 0%float
    /\ Meta.influence mc = 0%float.
Proof.
  intros Ha Hb Hc. destruct σ0 as [h0 reg0 clk t0]. unfold product.
  cbn [heap clock ticks].
  replace (State h0 reg0 clk t0) with (State (h0 ++ []) reg0 clk t0) by (by rewrite app_nil_r).
  destruct (init_numeric (State (h0 ++ []) reg0 clk t0) ka x na Ha)
    as (ka' & ma & n1 & Hinit1 & Pa & Ia).
  rewrite (bind_ok _ _ _ _ _ Hinit1). norm.
  match goal with |- context [bind (__init__ kb y None) _ ?s] =>
    destruct (init_numeric s kb y nb Hb) as (kb' & mb & n2 & Hinit2 & Pb & Ib)
  end.
  rewrite (bind_ok _ _ _ _ _ Hinit2). norm.
  erewrite bind_ok; cycle 1.
  { apply mul_eq. norm. unfold mul_data, py_mul.
    rewrite (is_number_as_num _ _ Ha), (is_number_as_num _ _ Hb), Ha, Hb, Hc. reflexivity. }
  norm. unfold ret. do 8 eexists. split; [reflexivity|]. done.
Qed.

(** * The claims of the specification *)

(** ** C1: the backward pass of the demo *)

(** C1. For the leaves [a = Scroll("/compute/a", 2.0)] and
    [b = Scroll("/compute/b", 3.0)], the program
    [c = a * b + a ** 2; c.backward()] runs to its end from any state and
    leaves [c.data = 10.0], [a.influence = 7.0] and [b.influence = 2.0], the
    data of [a] and [b] unchanged. The float power of the platform enters
    by its two values [2.0 ** 2.0 = 4.0] and [2.0 ** 1.0 = 2.0]. *)
Theorem demo_backward (float_pow : float -> float -> result float) (σ0 : state) :
  float_pow 2%float 2%float = Ok 4%float -> float_pow 2%float 1%float = Ok 2%float ->
  exists a b c σ,
    demo float_pow σ0 = Ok ((a, b, c), σ)
    /\ data (deref σ a) = VFloat 2 /\ data (deref σ b) = VFloat 3
    /\ data (deref σ c) = VFloat 10
    /\ influence_of σ a = 7%float
    /\ influence_of σ b = 2%float.
Proof.
  intros Hp2 Hp1. destruct σ0 as [h0 reg0 clk t0]. unfold demo.
  replace (State h0 reg0 clk t0) with (State (h0 ++ []) reg0 clk t0) by (by rewrite app_nil_r).
  erewrite bind_ok by (apply init_leaf; reflexivity). norm.
  erewrite bind_ok by (apply init_leaf; reflexivity). norm.
  erewrite bind_ok by (apply mul_eq; norm; reflexivity). norm.
  erewrite bind_ok by (apply pow_eq; norm; by apply pow_2_2). norm.
  erewrite bind_ok by (apply add_eq; norm; reflexivity). norm.
  remember (derived_key (VFloat 6) (clk (S (S (S t0))))) as km eqn:Ekm.
  remember (derived_key (VFloat 4) (clk (S (S (S (S (S t0))))))) as kp eqn:Ekp.
  remember (derived_key (VFloat 10) (clk (S (S (S (S (S (S (S t0))))))))) as kc eqn:Ekc.
  assert (NoDup ["/compute/a"; "/compute/b"; km; kp; kc]) as Hnd.
  { subst km kp kc. rewrite !derived_key_eq, hash8_4, hash8_6, hash8_10. cbn [append].
    repeat (apply NoDup_cons; split; [repeat rewrite not_elem_of_cons; repeat split;
                                       first [discriminate | apply not_elem_of_nil]|]).
    apply NoDup_nil. done. }
  clear Ekm Ekp Ekc.
  pose proof Hnd as Hnd'.
  apply NoDup_cons in Hnd' as [N1 Hnd']. apply NoDup_cons in Hnd' as [N2 Hnd'].
  apply NoDup_cons in Hnd' as [N3 Hnd']. apply NoDup_cons in Hnd' as [N4 _].
  repeat rewrite not_elem_of_cons in N1. repeat rewrite not_elem_of_cons in N2.
  repeat rewrite not_elem_of_cons in N3. repeat rewrite not_elem_of_cons in N4.
  destruct N1 as (? & ? & ? & ? & _), N2 as (? & ? & ? & _), N3 as (? & ? & _), N4 as (? & _).
  match goal with |- context [bind (backward _ _) _ ?s] => set (σ5 := s) end.
  assert (exists σ',
    backward float_pow (length h0 + 4) σ5 = Ok (tt, σ')
    /\ (forall r, data (deref σ' r) = data (deref σ5 r))
    /\ influence_of σ' (length h0 + 0) = 7%float
    /\ influence_of σ' (length h0 + 1) = 2%float
    /\ influence_of σ' (length h0 + 4) = 1%float) as (σ' & Hb & Hd & Hia & Hib & _).
  { apply (backward_demo_graph float_pow σ5 (length h0 + 0) (length h0 + 1) (length h0 + 2)
              (length h0 + 3) (length h0 + 4) "/compute/a" "/compute/b" km kp kc);
      first [ exact Hp1 | exact Hnd | lia
            | solve [unfold σ5; norm; first [reflexivity | lia]]
            | solve [unfold σ5; lookup] ]. }
  exists (length h0 + 0)%nat, (length h0 + 1)%nat, (length h0 + 4)%nat, σ'.
  split; [by rewrite (bind_ok _ _ _ _ _ Hb)|].
  unfold influence_of in Hia, Hib. unfold deref in Hd, Hia, Hib.
  rewrite !Hd, Hia, Hib. unfold σ5. norm. done.
Qed.

Lemma demo_backward_witness :
  pow_int 2%float 2%float = Ok 4%float /\ pow_int 2%float 1%float = Ok 2%float
  /\ exists a b c σ,
       demo pow_int blank = Ok ((a, b, c), σ)
       /\ data (deref σ a) = VFloat 2 /\ data (deref σ b) = VFloat 3
       /\ data (deref σ c) = VFloat 10
       /\ influence_of σ a = 7%float
       /\ influence_of σ b = 2%float.
Proof.
  split; [reflexivity|]. split; [reflexivity|].
  apply (demo_backward pow_int blank); reflexivity.
Defined.

(** ** C2: the table of [+], and a dict under [*] *)

(** C2. [a + b] on two scrolls returns a new registered child labelled "+"
    whose parents are [a] and [b] and whose data is: the integer sum of two
    ints, the float sum of two numbers of which one is a float (an int
    operand taken as the float it converts to), the concatenation of two
    texts, the concatenation in order of two lists, and the merge of two
    dicts in which a key of the right operand wins. For any other pair of
    operands [a + b] raises TypeError, and so does [a * b] for a dict and a
    number. *)
Theorem combine_table (σ : state) (a b : nat) :
  let x := data (deref σ a) in
  let y := data (deref σ b) in
  let out := length (heap σ) in
  (forall m n, as_num x = Some (NInt m) -> as_num y = Some (NInt n) ->
     exists σ', __add__ a (OScroll b) σ = Ok (out, σ')
                /\ is_child σ σ' out (VInt (m + n)) "+" [a; b])
  /\ (forall na nb fx fy, as_num x = Some na -> as_num y = Some nb ->
     match na, nb with NInt _, NInt _ => False | _, _ => True end ->
     to_float na = Ok fx -> to_float nb = Ok fy ->
     exists σ', __add__ a (OScroll b) σ = Ok (out, σ')
                /\ is_child σ σ' out (VFloat (fx + fy)) "+" [a; b])
  /\ (forall s t, x = VStr s -> y = VStr t ->
     exists σ', __add__ a (OScroll b) σ = Ok (out, σ')
                /\ is_child σ σ' out (VStr (s +:+ t)) "+" [a; b])
  /\ (forall xs ys, x = VList xs -> y = VList ys ->
     exists σ', __add__ a (OScroll b) σ = Ok (out, σ')
                /\ is_child σ σ' out (VList (xs ++ ys)) "+" [a; b])
  /\ (forall d1 d2, x = VDict d1 -> y = VDict d2 ->
     exists σ', __add__ a (OScroll b) σ = Ok (out, σ')
                /\ is_child σ σ' out (VDict (dict_merge d1 d2)) "+" [a; b]
                /\ (NoDup d2.*1 -> forall k,
                      dict_get k (dict_merge d1 d2) =
                        match dict_get k d2 with
                        | Some v => Some v
                        | None => dict_get k d1
                        end))
  /\ (same_kind x y = false -> __add__ a (OScroll b) σ = Raise TypeError)
  /\ (is_dict x = true -> is_number y = true -> __mul__ a (OScroll b) σ = Raise TypeError).
Proof.
  intros x y out.
  assert (forall na nb nc, as_num x = Some na -> as_num y = Some nb -> num_add na nb = Ok nc ->
            exists σ', __add__ a (OScroll b) σ = Ok (out, σ')
                       /\ is_child σ σ' out (of_num nc) "+" [a; b]) as Hnum.
  { intros na nb nc Hx Hy Hc.
    destruct (add_child σ a b (of_num nc)) as (σ' & H & Hch & _); [|by exists σ'].
    fold x y. unfold add_data, py_add.
    rewrite (is_number_as_num _ _ Hx), (is_number_as_num _ _ Hy), Hx, Hy, Hc. reflexivity. }
  refine (conj _ (conj _ (conj _ (conj _ (conj _ (conj _ _)))))).
  - intros m n Hx Hy. exact (Hnum (NInt m) (NInt n) (NInt (m + n)) Hx Hy eq_refl).
  - intros na nb fx fy Hx Hy Hmixed Hfx Hfy.
    apply (Hnum na nb (NFloat (fx + fy)) Hx Hy).
    unfold num_add, num_binop. destruct na, nb; try (by destruct Hmixed);
      rewrite Hfx, Hfy; reflexivity.
  - intros s t Hx Hy.
    destruct (add_child σ a b (VStr (s +:+ t))) as (σ' & H & Hch & _); [|by exists σ'].
    fold x y. by rewrite Hx, Hy.
  - intros xs ys Hx Hy.
    destruct (add_child σ a b (VList (xs ++ ys))) as (σ' & H & Hch & _); [|by exists σ'].
    fold x y. by rewrite Hx, Hy.
  - intros d1 d2 Hx Hy.
    destruct (add_child σ a b (VDict (dict_merge d1 d2))) as (σ' & H & Hch & _).
    { fold x y. by rewrite Hx, Hy. }
    exists σ'. split; [done|]. split; [done|]. intros Hnd k. by apply dict_get_merge.
  - intros Hk. apply add_raise. fold x y.
    destruct x, y; try discriminate Hk; reflexivity.
  - intros Hx Hy. apply mul_raise. fold x y.
    destruct x; try discriminate Hx. destruct y; try discriminate Hy; reflexivity.
Qed.

(** ** C3: the wire round trip *)

(** The data of a scroll that JSON cannot carry does not come back: an
    [object()] is written as its text. *)
Lemma roundtrip_loses_opaque_data :
  outcome opaque_roundtrip blank =
    Ok (VObject 0x7f08ad1143e0, VStr "<object object at 0x7f08ad1143e0>").
Proof. vm_compute. reflexivity. Qed.

(** C3. For a scroll [e] with a path key and a hash (every scroll the
    constructor makes has both: [init_path_and_hash]),
    [Scroll.from_dict(e.to_dict())] succeeds and creates a scroll with the
    key of [e]; with the schema, version, hash, time, parents and label of
    [e]; with the influence of [e], a negative zero read back as zero; and
    with the data of [e] when it is JSON-safe, the text [str(data)]
    otherwise. *)
Theorem wire_roundtrip (σ : state) (e : nat) :
  let s := deref σ e in
  startswith (key s) "/" = true -> Meta.hash (meta s) <> "" ->
  exists e' σ',
    from_dict (to_dict s) σ = Ok (e', σ')
    /\ let s' := deref σ' e' in
       key s' = key s
       /\ data s' = wire_data (data s)
       /\ (_is_json_safe (data s) = true -> data s' = data s)
       /\ Meta.schema (meta s') = Meta.schema (meta s)
       /\ Meta.version (meta s') = Meta.version (meta s)
       /\ Meta.hash (meta s') = Meta.hash (meta s)
       /\ Meta.time (meta s') = Meta.time (meta s)
       /\ Meta.prev (meta s') = Meta.prev (meta s)
       /\ Meta.op (meta s') = Meta.op (meta s)
       /\ Meta.influence (meta s') = wire_influence (Meta.influence (meta s)).
Proof.
  intros s Hk Hh. unfold from_dict, to_dict.
  cbn [dict_get String.eqb Ascii.eqb Bool.eqb].
  unfold bind at 1, now at 1. unfold bind at 1.
  rewrite Meta_roundtrip. cbn [lift]. unfold bind at 1. unfold bind at 1. cbn [lift].
  rewrite init_with_meta by (destruct (meta s); done).
  do 2 eexists. split; [reflexivity|].
  cbn zeta. rewrite !deref_push_new. cbn [key data meta].
  fold (wire_data (data s)).
  repeat split; try (by destruct (meta s)).
  intros Hsafe. unfold wire_data. by rewrite Hsafe.
Qed.

Lemma wire_roundtrip_witness :
  let s := deref after_product 2 in
  (Meta.prev (meta s) = ["/compute/a"; "/compute/b"] /\ Meta.op (meta s) = "*"
   /\ Meta.influence (meta s) = 1%float)
  /\ startswith (key s) "/" = true /\ Meta.hash (meta s) <> ""
  /\ exists e' σ',
       from_dict (to_dict s) after_product = Ok (e', σ')
       /\ let s' := deref σ' e' in
          key s' = key s
          /\ data s' = wire_data (data s)
          /\ (_is_json_safe (data s) = true -> data s' = data s)
          /\ Meta.schema (meta s') = Meta.schema (meta s)
          /\ Meta.version (meta s') = Meta.version (meta s)
          /\ Meta.hash (meta s') = Meta.hash (meta s)
          /\ Meta.time (meta s') = Meta.time (meta s)
          /\ Meta.prev (meta s') = Meta.prev (meta s)
          /\ Meta.op (meta s') = Meta.op (meta s)
          /\ Meta.influence (meta s') = wire_influence (Meta.influence (meta s)).
Proof.
  assert (startswith (key (deref after_product 2)) "/" = true) as Hk
    by (vm_compute; reflexivity).
  assert (Meta.hash (meta (deref after_product 2)) <> "") as Hh by (vm_compute; discriminate).
  split; [vm_compute; repeat split|].
  exact (conj Hk (conj Hh (wire_roundtrip after_product 2 Hk Hh))).
Defined.

(** ** C4: the content hash *)

(** Two scrolls that differ in key and in data, and have one hash: the key
    and the JSON text are digested end to end, with nothing between them. *)
Lemma distinct_envelopes_same_hash :
  "/a1" <> "/a" /\ VInt 1 <> VInt 11
  /\ outcome (hash_of_new "/a1" (VInt 1)) blank = outcome (hash_of_new "/a" (VInt 11)) blank
  /\ outcome (hash_of_new "/a" (VInt 11)) blank
     = Ok "1702b41952b7e367dc55a4fe68fbd4fb7a9bd315bd29b48b3c901898fed59947".
Proof.
  split; [discriminate|]. split; [discriminate|]. split; vm_compute; reflexivity.
Qed.

(** C4. [Scroll(k, d)] with a path key succeeds in any two states, and both
    scrolls carry the hash [sha256(k + json.dumps(d, default=str,
    sort_keys=True))]: the hash is a function of key and data alone. The
    text that is digested changes when the key alone changes, and when the
    JSON text of the data alone changes. *)
Theorem hash_deterministic (σ σ' : state) (k : string) (d : value) :
  startswith k "/" = true ->
  exists e e' τ τ',
    __init__ (VStr k) d None σ = Ok (e, τ)
    /\ __init__ (VStr k) d None σ' = Ok (e', τ')
    /\ Meta.hash (meta (deref τ e)) = sha256_hex (hashed_text k d)
    /\ Meta.hash (meta (deref τ' e')) = sha256_hex (hashed_text k d)
    /\ (forall k', k' <> k -> hashed_text k' d <> hashed_text k d)
    /\ (forall d', canonical d' <> canonical d -> hashed_text k d' <> hashed_text k d).
Proof.
  intros Hk. do 4 eexists.
  split; [by apply init_leaf|]. split; [by apply init_leaf|].
  rewrite !deref_tick, !deref_push_new. cbn [meta leaf_of Meta.hash].
  split; [done|]. split; [done|]. split.
  - intros k' Hne H. apply Hne. by apply append_inv_r in H.
  - intros d' Hne H. apply Hne. unfold hashed_text in H. by apply String.app_inj in H.
Qed.

Lemma hash_deterministic_witness :
  startswith "/x" "/" = true
  /\ exists e e' τ τ',
       __init__ (VStr "/x") (VInt 5) None blank = Ok (e, τ)
       /\ __init__ (VStr "/x") (VInt 5) None one_leaf = Ok (e', τ')
       /\ Meta.hash (meta (deref τ e)) = sha256_hex (hashed_text "/x" (VInt 5))
       /\ Meta.hash (meta (deref τ' e')) = sha256_hex (hashed_text "/x" (VInt 5))
       /\ (forall k', k' <> "/x" -> hashed_text k' (VInt 5) <> hashed_text "/x" (VInt 5))
       /\ (forall d', canonical d' <> canonical (VInt 5) ->
             hashed_text "/x" d' <> hashed_text "/x" (VInt 5)).
Proof.
  split; [reflexivity|].
  apply (hash_deterministic blank one_leaf "/x" (VInt 5)). reflexivity.
Defined.

(** ** C5: power, negation, subtraction and division *)

(** Negating a text succeeds, with the empty text; subtracting two texts
    succeeds, with the left one. *)
Lemma negation_of_text_succeeds :
  outcome negate_text blank = Ok (VStr "")
  /\ outcome subtract_texts blank = Ok (VStr "abc").
Proof. split; vm_compute; reflexivity. Qed.

Section Derived.
Variable float_pow : float -> float -> result float.

(** C5. On scrolls [a] and [b] of the heap: [a ** n] raises TypeError when
    the data of [a] is not a number; [a / b] raises TypeError when the data
    of [b] is not a number, and raises when the data of [a] is not; [-a]
    raises TypeError when the data of [a] is neither a number, a text nor a
    list. But [-a] is [a * Scroll(-1)]: on a text it returns a child
    carrying the empty text, on a list a child carrying the empty list, and
    [a - b] on two texts returns a child carrying the text of [a]. *)
Theorem derived_operators (σ : state) (a b : nat) :
  (a < length (heap σ))%nat -> (b < length (heap σ))%nat ->
  let x := data (deref σ a) in
  let y := data (deref σ b) in
  (as_num x = None -> forall n, __pow__ float_pow a n σ = Raise TypeError)
  /\ (as_num y = None -> __truediv__ float_pow a (OScroll b) σ = Raise TypeError)
  /\ (as_num x = None -> exists e, __truediv__ float_pow a (OScroll b) σ = Raise e)
  /\ (as_num x = None -> is_str x = false -> is_list x = false ->
        __neg__ a σ = Raise TypeError)
  /\ (forall s, x = VStr s ->
        exists out σ', __neg__ a σ = Ok (out, σ') /\ data (deref σ' out) = VStr "")
  /\ (forall xs, x = VList xs ->
        exists out σ', __neg__ a σ = Ok (out, σ') /\ data (deref σ' out) = VList [])
  /\ (forall s t, x = VStr s -> y = VStr t ->
        exists out σ', __sub__ a (OScroll b) σ = Ok (out, σ')
                       /\ data (deref σ' out) = VStr s).
Proof.
  intros Ha Hb x y.
  refine (conj _ (conj _ (conj _ (conj _ (conj _ (conj _ _)))))).
  - intros Hx n. apply pow_raise. by apply py_pow_not_number.
  - intros Hy. unfold __truediv__. apply bind_raise, pow_raise. by apply py_pow_not_number.
  - intros Hx. unfold __truediv__.
    destruct (py_pow float_pow y (VInt (-1))) as [z|e] eqn:Hz.
    + exists TypeError. erewrite bind_ok by (by apply pow_eq). apply mul_raise.
      destruct (py_pow_minus_one float_pow _ _ Hz) as [f ->].
      rewrite child_pushed. cbn [data].
      rewrite data_with_rule, deref_tick, deref_push_old by done.
      by apply mul_data_not_number_float.
    + exists e. by apply bind_raise, pow_raise.
  - intros Hx Hs Hl. apply neg_raise; [done|]. fold x.
    destruct x; try discriminate; reflexivity.
  - intros s Hx. destruct (neg_eq σ a (VStr "") Ha) as (σ' & H & Hd & _).
    { fold x. by rewrite Hx. }
    by exists (S (length (heap σ))), σ'.
  - intros xs Hx. destruct (neg_eq σ a (VList []) Ha) as (σ' & H & Hd & _).
    { fold x. by rewrite Hx. }
    by exists (S (length (heap σ))), σ'.
  - intros s t Hx Hy. unfold __sub__.
    destruct (neg_eq σ b (VStr "") Hb) as (σ' & H & Hd & Hlen & Hframe).
    { fold y. by rewrite Hy. }
    rewrite (bind_ok _ _ _ _ _ H).
    destruct (add_child σ' a (S (length (heap σ))) (VStr s)) as (σ'' & H' & (_ & Hd' & _) & _).
    { rewrite Hd, Hframe by done. fold x. rewrite Hx.
      change (Ok (VStr (s +:+ "")) = Ok (VStr s)). by rewrite append_nil_r. }
    by exists (length (heap σ')), σ''.
Qed.

End Derived.

Lemma derived_operators_witness :
  (0 < length (heap one_text))%nat
  /\ (forall n, __pow__ pow_int 0 n one_text = Raise TypeError)
  /\ __truediv__ pow_int 0 (OScroll 0) one_text = Raise TypeError
  /\ (exists out σ', __neg__ 0 one_text = Ok (out, σ') /\ data (deref σ' out) = VStr "")
  /\ (exists out σ', __sub__ 0 (OScroll 0) one_text = Ok (out, σ')
                     /\ data (deref σ' out) = VStr "abc").
Proof.
  assert (0 < length (heap one_text))%nat as H by (vm_compute; constructor).
  destruct (derived_operators pow_int one_text 0 0 H H) as (Hp & Hd & _ & _ & Hn & _ & Hs).
  split; [exact H|]. split; [exact (Hp eq_refl)|]. split; [exact (Hd eq_refl)|].
  split; [exact (Hn "abc" eq_refl)|exact (Hs "abc" "abc" eq_refl eq_refl)].
Defined.

(** ** C6: the activations *)

(** [relu] on a text returns a new scroll, not the receiver: it carries the
    same text, is labelled "relu" and is registered under its own key. *)
Lemma relu_of_text_makes_child :
  outcome relu_text blank = Ok (0%nat, 1%nat, VStr "abc", "relu", Some 1%nat).
Proof. vm_compute. reflexivity. Qed.

Section Activations.
Variable float_pow : float -> float -> result float.
Variable math_tanh : float -> float.

(** C6. On a scroll whose data is not a number, [tanh] returns the scroll
    itself and leaves the state as it is, while [relu] creates and registers
    a child labelled "relu" that carries the same data and whose closure
    does nothing. On a number [x], [relu] returns a child carrying [x] when
    [x > 0] and [0] otherwise, whose closure adds to the influence of the
    parent the influence of the child when [x > 0] and zero times it
    otherwise; [tanh] returns a child carrying [t = tanh(x)] whose closure
    adds [(1 - t * t)] times the influence of the child. *)
Theorem activations (σ : state) (a : nat) :
  let x := data (deref σ a) in
  let out := length (heap σ) in
  (as_num x = None -> tanh math_tanh a σ = Ok (a, σ))
  /\ (as_num x = None ->
        exists σ', relu a σ = Ok (out, σ')
                   /\ is_child σ σ' out x "relu" [a]
                   /\ _backward (deref σ' out) = BRelu a out
                   /\ run_backward float_pow (BRelu a out) σ' = Ok (tt, σ'))
  /\ (forall n, as_num x = Some n ->
        exists σ', relu a σ = Ok (out, σ')
                   /\ is_child σ σ' out (if num_pos n then x else VInt 0) "relu" [a]
                   /\ _backward (deref σ' out) = BRelu a out
                   /\ run_backward float_pow (BRelu a out) σ' =
                        Ok (tt, with_influence a
                                  (influence_of σ' a
                                   + indicator (num_pos n) * influence_of σ' out)%float σ'))
  /\ (forall n v, as_num x = Some n -> to_float n = Ok v ->
        exists σ', tanh math_tanh a σ = Ok (out, σ')
                   /\ is_child σ σ' out (VFloat (math_tanh v)) "tanh" [a]
                   /\ _backward (deref σ' out) = BTanh a (math_tanh v) out
                   /\ run_backward float_pow (BTanh a (math_tanh v) out) σ' =
                        Ok (tt, with_influence a
                                  (influence_of σ' a
                                   + (1 - math_tanh v * math_tanh v) * influence_of σ' out)%float
                                  σ')).
Proof.
  intros x out. refine (conj _ (conj _ (conj _ _))).
  - intros Hx. unfold tanh, load. unfold bind at 1. fold x. by rewrite Hx.
  - intros Hx. eexists. split; [apply relu_eq|].
    assert (is_number x = false) as Hn by (by destruct x).
    fold x. rewrite Hn. split; [apply is_child_pushed|]. split; [by rewrite child_pushed|].
    apply run_relu_not_number. by rewrite child_pushed.
  - intros n Hx. eexists. split; [apply relu_eq|].
    fold x. rewrite (is_number_as_num _ _ Hx). unfold max0. rewrite Hx.
    split; [apply is_child_pushed|]. split; [by rewrite child_pushed|].
    destruct (num_pos n) eqn:Hpos.
    + erewrite run_relu by (rewrite child_pushed; exact Hx). by rewrite Hpos.
    + erewrite run_relu by (rewrite child_pushed; reflexivity). reflexivity.
  - intros n v Hx Hv. eexists. split; [by eapply tanh_eq|].
    split; [apply is_child_pushed|]. split; [by rewrite child_pushed|]. apply run_tanh.
Qed.

End Activations.

(** ** C7: [reduce] and its initial value *)

(** C7. [Scroll(data=[1, 2, 3]).reduce(lambda acc, x: acc * x, 0)] carries
    6, where the fold seeded with 0 gives 0: [reduce] tests the truth of
    [initial], so that any falsy initial value is dropped and the fold is
    the one without an initial value. *)
Theorem reduce_drops_falsy_initial (σ : state) :
  outcome reduce_with_zero σ = Ok (VInt 6)
  /\ functools_reduce py_mul [VInt 1; VInt 2; VInt 3] (Some (VInt 0)) = Ok (VInt 0)
  /\ (forall self fn initial, py_truthy initial = false ->
        reduce self fn initial σ = reduce self fn VNone σ).
Proof.
  split; [|split; [reflexivity|]].
  - unfold outcome, reduce_with_zero.
    erewrite bind_ok by (apply init_derived; exact I).
    unfold reduce. unfold bind at 1. unfold bind at 1, load at 1.
    rewrite deref_tick, deref_push_new. cbn [data].
    unfold bind at 1, lift. cbn [py_truthy Z.eqb negb functools_reduce fold].
    cbn [py_mul as_num num_mul num_binop rbind of_num Z.mul Pos.mul Pos.add Pos.succ].
    rewrite _child_eq. unfold bind, load, ret. by rewrite deref_tick, deref_push_new.
  - intros self fn initial Hf. unfold reduce. by rewrite Hf.
Qed.

(** ** C8: [get] below the range of a list *)

(** C8. [Scroll(data=[1, 2, 3]).get(-4)] raises IndexError, and so does
    [get(i)] on any list for an index [i] below minus its length: the guard
    [key < len(self.data)] lets every negative index through to the
    subscript. *)
Theorem get_negative_index_raises (σ : state) :
  get_below_range σ = Raise IndexError
  /\ (forall self xs i, data (deref σ self) = VList xs -> i < - Z.of_nat (length xs) ->
        get self (VInt i) σ = Raise IndexError).
Proof.
  split.
  - unfold get_below_range.
    erewrite bind_ok by (apply init_derived; exact I).
    unfold get. unfold bind at 1, load at 1. rewrite deref_tick, deref_push_new. reflexivity.
  - intros self xs i Hd Hi. unfold get. unfold bind at 1, load at 1. rewrite Hd.
    cbn [int_of]. unfold bind at 1, lift.
    replace (i <? Z.of_nat (length xs)) with true by (symmetry; apply Z.ltb_lt; lia).
    unfold py_index.
    replace (i <? 0) with true by (symmetry; apply Z.ltb_lt; lia).
    replace (i + Z.of_nat (length xs) <? 0) with true by (symmetry; apply Z.ltb_lt; lia).
    reflexivity.
Qed.

(** ** C9: parents that no longer resolve *)

(** After [Scroll.clear()] no parent of [c = a * b] resolves: the backward
    pass still completes, seeds [c] with 1.0 and runs its closure. *)
Lemma backward_after_clear_completes :
  outcome backward_after_clear blank = Ok (3%float, 2%float, 1%float).
Proof. vm_compute. reflexivity. Qed.

Section Traversal.
Variable float_pow : float -> float -> result float.

(** C9. From any scroll of any state the topological walk of [backward]
    terminates with an order, and [backward] is the seeding of the scroll
    followed by the closures of that order, last first; in the walk a parent
    key absent from the registry is passed over; [lineage] gives no entry
    for such a key, and only the entry of the scroll itself when none of its
    parents resolves. No step of either traversal raises on a missing
    key. *)
Theorem unresolved_parents_are_skipped (σ : state) (self : nat) :
  (exists vt, build_topo (topo_fuel σ) σ self (∅, []) = Some vt
              /\ backward float_pow self σ =
                   bind (set_influence self 1%float)
                        (fun _ => run_all float_pow (rev vt.2)) σ)
  /\ (forall visit k ks vt, read σ k = None ->
        parents visit σ (k :: ks) vt = parents visit σ ks vt)
  /\ (forall d k, read σ k = None -> trace σ d (read σ k) = [])
  /\ (forall d, Forall (fun k => read σ k = None) (Meta.prev (meta (deref σ self))) ->
        trace σ (S d) (Some self) = [descriptor (deref σ self)]).
Proof.
  refine (conj _ (conj _ (conj _ _))).
  - destruct (build_topo_completes σ self) as [vt Hvt]. exists vt. split; [done|].
    by apply backward_eq with (f := topo_fuel σ).
  - intros visit k ks vt Hk. by apply parents_unresolved.
  - intros d k ->. by destruct d.
  - intros d Hall. cbn [trace]. f_equal.
    induction Hall as [|k ks Hk _ IH]; [done|]. cbn [flat_map]. rewrite Hk, IH.
    by destruct d.
Qed.

End Traversal.

(** ** C10: a second backward pass *)

(** C10. For leaves [a = Scroll(ka, x)] and [b = Scroll(kb, y)] carrying
    numbers (under given or derived keys) and [c = a * b], one
    [c.backward()] leaves [c.influence = 1.0], [a.influence = 0.0 + y * 1.0]
    and [b.influence = 0.0 + x * 1.0]; a second one leaves [c.influence =
    1.0] again and adds the same contributions to the influences the first
    pass left on [a] and [b], which are not reset: each is its single-pass
    value taken twice. *)
Theorem backward_accumulates (float_pow : float -> float -> result float) (σ0 : state)
    (ka kb x y : value) (na nb : num) (fx fy : float) :
  as_num x = Some na -> to_float na = Ok fx ->
  as_num y = Some nb -> to_float nb = Ok fy ->
  exists a b c σ1 σ2,
    backward_once float_pow ka kb x y σ0 = Ok ((a, b, c), σ1)
    /\ backward_twice float_pow ka kb x y σ0 = Ok ((a, b, c), σ2)
    /\ influence_of σ1 c = 1%float /\ influence_of σ2 c = 1%float
    /\ influence_of σ1 a = (0 + fy * 1)%float
    /\ influence_of σ1 b = (0 + fx * 1)%float
    /\ influence_of σ2 a = (influence_of σ1 a + fy * 1)%float
    /\ influence_of σ2 b = (influence_of σ1 b + fx * 1)%float.
Proof.
  intros Ha Hx Hb Hy.
  destruct (num_mul_total na nb fx fy Hx Hy) as [nc Hc].
  destruct (product_eq σ0 ka kb x y na nb nc Ha Hb Hc)
    as (ka' & kb' & kc & mc & ma & mb & reg & t & Hprod & Pa & Pb & Pc & Ia & Ib & Ic).
  cbn zeta in Hprod.
  set (n := length (heap σ0)) in *.
  match type of Hprod with _ = Ok (_, ?s) => set (σ3 := s) in * end.
  assert (length (heap σ3) = n + 3)%nat as Hlen
    by (unfold σ3; cbn [heap]; rewrite length_app; reflexivity).
  assert (deref σ3 (n + 0) = Make ka' x ma BNone) as Da by (unfold σ3, deref, n; cbn [heap]; by rewrite nth_offset).
  assert (deref σ3 (n + 1) = Make kb' y mb BNone) as Db by (unfold σ3, deref, n; cbn [heap]; by rewrite nth_offset).
  assert (deref σ3 (n + 2) = Make kc (of_num nc) mc (BMul (n + 0) (n + 1) (n + 2))) as Dc
    by (unfold σ3, deref, n; cbn [heap]; by rewrite nth_offset).
  assert (forall k p, k ∈ Meta.prev (meta (deref σ3 (n + 2))) -> read σ3 k = Some p ->
            p = (n + 2)%nat \/ (Meta.prev (meta (deref σ3 p)) = [] /\ inert σ3 p)) as Hreads.
  { intros k p Hk Hr. rewrite Dc in Hk. cbn [meta] in Hk. rewrite Pc in Hk.
    unfold read, σ3 in Hr. cbn [_registry] in Hr.
    rewrite !lookup_insert in Hr.
    repeat case_decide; simplify_eq; first [ by left | right; unfold inert; rewrite ?Da, ?Db; done | idtac ].
    set_solver. }
  pose proof (backward_product_graph float_pow σ3 (n + 0) (n + 1) (n + 2) na nb fx fy) as Hpass1.
  rewrite Da, Db, Dc in Hpass1. specialize (Hpass1 eq_refl).
  rewrite Dc in Hreads. specialize (Hpass1 Hreads Ha Hx Hb Hy). cbn zeta in Hpass1.
  match type of Hpass1 with _ = Ok (_, ?s) => set (σ4 := s) in * end.
  assert (_backward (deref σ4 (n + 2)) = BMul (n + 0) (n + 1) (n + 2)) as R4
    by (unfold σ4; rewrite !rule_with_influence; by rewrite Dc).
  assert (as_num (data (deref σ4 (n + 0))) = Some na) as Da4
    by (unfold σ4; rewrite !data_with_influence; by rewrite Da).
  assert (as_num (data (deref σ4 (n + 1))) = Some nb) as Db4
    by (unfold σ4; rewrite !data_with_influence; by rewrite Db).
  assert (forall k p, k ∈ Meta.prev (meta (deref σ4 (n + 2))) -> read σ4 k = Some p ->
            p = (n + 2)%nat \/ (Meta.prev (meta (deref σ4 p)) = [] /\ inert σ4 p)) as Hreads4.
  { intros k p Hk Hr. unfold σ4 in Hr, Hk. rewrite !read_with_influence in Hr.
    rewrite !prev_with_influence, Dc in Hk.
    destruct (Hreads k p Hk Hr) as [->|[Hp Hi]]; [by left|right].
    unfold σ4, inert. rewrite !prev_with_influence, !rule_with_influence. done. }
  pose proof (backward_product_graph float_pow σ4 (n + 0) (n + 1) (n + 2) na nb fx fy
                R4 Hreads4 Da4 Hx Db4 Hy) as Hpass2.
  cbn zeta in Hpass2.
  match type of Hpass2 with _ = Ok (_, ?s) => set (σ5 := s) in * end.
  exists (n + 0)%nat, (n + 1)%nat, (n + 2)%nat, σ4, σ5.
  split; [|split].
  - unfold backward_once. rewrite (bind_ok _ _ _ _ _ Hprod). cbn [snd].
    by rewrite (bind_ok _ _ _ _ _ Hpass1).
  - unfold backward_twice. rewrite (bind_ok _ _ _ _ _ Hprod). cbn [snd].
    rewrite (bind_ok _ _ _ _ _ Hpass1). by rewrite (bind_ok _ _ _ _ _ Hpass2).
  - assert (influence_of σ3 (n + 0) = 0%float) as I0 by (unfold influence_of; by rewrite Da).
    assert (influence_of σ3 (n + 1) = 0%float) as I1 by (unfold influence_of; by rewrite Db).
    assert (influence_of σ4 (n + 2) = 1%float) as I4c.
    { unfold σ4. rewrite !influence_with_influence_ne by lia.
      by rewrite influence_with_influence_eq by valid_ref Hlen. }
    assert (influence_of σ4 (n + 0) = (0 + fy * 1)%float) as I4a.
    { unfold σ4. rewrite influence_with_influence_ne by lia.
      rewrite influence_with_influence_eq by valid_ref Hlen.
      rewrite influence_with_influence_ne by lia.
      rewrite influence_with_influence_eq by valid_ref Hlen. by rewrite I0. }
    assert (influence_of σ4 (n + 1) = (0 + fx * 1)%float) as I4b.
    { unfold σ4. rewrite influence_with_influence_eq by valid_ref Hlen.
      rewrite !influence_with_influence_ne by lia.
      rewrite influence_with_influence_eq by valid_ref Hlen. by rewrite I1. }
    assert (length (heap σ4) = n + 3)%nat as Hlen4 by (unfold σ4; valid_ref Hlen).
    repeat split; try done.
    + unfold σ5. rewrite !influence_with_influence_ne by lia.
      by rewrite influence_with_influence_eq by valid_ref Hlen4.
    + unfold σ5. rewrite influence_with_influence_ne by lia.
      rewrite influence_with_influence_eq by valid_ref Hlen4.
      rewrite influence_with_influence_ne by lia.
      by rewrite influence_with_influence_eq by valid_ref Hlen4.
    + unfold σ5. rewrite influence_with_influence_eq by valid_ref Hlen4.
      rewrite !influence_with_influence_ne by lia.
      by rewrite influence_with_influence_eq by valid_ref Hlen4.
Qed.

Lemma backward_accumulates_witness :
  exists a b c σ1 σ2,
    backward_once pow_int VNone (VStr "/compute/b") (VFloat 2) (VInt 3) blank = Ok ((a, b, c), σ1)
    /\ backward_twice pow_int VNone (VStr "/compute/b") (VFloat 2) (VInt 3) blank
       = Ok ((a, b, c), σ2)
    /\ influence_of σ1 c = 1%float /\ influence_of σ2 c = 1%float
    /\ influence_of σ1 a = 3%float /\ influence_of σ1 b = 2%float
    /\ influence_of σ2 a = 6%float /\ influence_of σ2 b = 4%float.
Proof.
  destruct (backward_accumulates pow_int blank VNone (VStr "/compute/b") (VFloat 2) (VInt 3)
              (NFloat 2) (NInt 3) 2%float 3%float eq_refl eq_refl eq_refl eq_refl)
    as (a & b & c & σ1 & σ2 & H1 & H2 & C1 & C2 & A1 & B1 & A2 & B2).
  exists a, b, c, σ1, σ2.
  rewrite A1 in A2. rewrite B1 in B2.
  exact (conj H1 (conj H2 (conj C1 (conj C2 (conj A1 (conj B1 (conj A2 B2))))))).
Defined.
